(** * tune_relay_microtvm: the autotuning driver of micro_eval

    A shallow embedding of [python/micro_eval/tuning/tune_relay_microtvm.py].

    The script owns no algorithm of its own: it reads a few module-level
    settings, mutates one dictionary ([DEV_CONFIG]) and sequences calls into
    the compiler framework.  The embedding keeps exactly that:

    - Python names are resolved through an explicit namespace, so that a
      name that is never bound raises [NameError] as it does in Python;
    - the module-level dictionary [DEV_CONFIG] is a [gmap] threaded through
      a state-and-exception monad, and a mutation made before an exception
      is raised stays visible after it;
    - every call that leaves the script (printing, prompting, the tracker,
      the cross compiler, the runner, the tuner, the file system) is
      appended to a trace of events carrying the arguments of the call;
      the builder, the measure option and the callbacks are plain packaging
      and appear as arguments of the tuning call.  Such calls are taken to
      return; what they return is read from a [world] record;
    - the one call the script can make fail by itself is [os.remove], on a
      path nothing has created.  The state therefore keeps the set of
      existing files: those present at the start, those opened for
      writing, and the log file of every tuning run, which is taken to
      record results through its [log_to_file] callback.  [os.remove]
      raises [FileNotFoundError] on a path outside that set;
      [custom_pick_best], which is not part of this file, is taken to
      return and to leave its input file in place. *)

From Stdlib Require Import Ascii.
From Stdlib Require QArith.
From stdpp Require Import gmap strings list fin_maps pretty.

Set Warnings "-clear-no-such-hyp".

(** ** Strings as Python uses them *)

Module PyStr.

Definition newline : ascii := Ascii.ascii_of_nat 10.

(** The double-quote character. *)
Definition dquote : string := String (Ascii.ascii_of_nat 34) EmptyString.

(** [needle in hay] on Python strings: some suffix of [hay] starts with
    [needle]. *)
Fixpoint contains (needle hay : string) : bool :=
  String.prefix needle hay ||
  match hay with
  | EmptyString => false
  | String _ rest => contains needle rest
  end.

(** [s.split('\n')]: one field more than there are separators, so the
    result is never empty. *)
Fixpoint split_lines (s : string) : list string :=
  match s with
  | EmptyString => [EmptyString]
  | String c rest =>
      if Ascii.eqb c newline then EmptyString :: split_lines rest
      else match split_lines rest with
           | field :: fields => String c field :: fields
           | [] => [String c EmptyString]
           end
  end.

(** ['\n'.join(fields)] *)
Fixpoint join_lines (fields : list string) : string :=
  match fields with
  | [] => EmptyString
  | [field] => field
  | field :: rest => field +:+ String newline (join_lines rest)
  end.

(** [str(n)] for a non-negative integer. *)
Definition of_nat (n : nat) : string := pretty n.

(** ["%2d" % n]: decimal, right-justified in a field of width 2. *)
Definition fmt_2d (n : nat) : string :=
  let digits := of_nat n in
  if (String.length digits <? 2)%nat then " " +:+ digits else digits.

End PyStr.

(** ** Objects, exceptions and name resolution *)

(** What a module-level name can be bound to, as far as this script looks
    at it: literals are kept, everything imported or defined is opaque. *)
Inductive pyobj :=
| ONone
| OInt (n : Z)
| OStr (s : string)
| OObject (qualname : string).

(** [str(obj)], as an f-string field formats it.  An opaque object prints
    as its qualified name. *)
Definition py_str (obj : pyobj) : string :=
  match obj with
  | ONone => "None"
  | OInt n => pretty n
  | OStr s => s
  | OObject qualname => qualname
  end.

Inductive exn :=
| NameError (name : string)
| KeyError (key : string)
| AssertionError
| FileNotFoundError (path : string)
| Raised (class_name message : string).

Inductive result (A : Type) :=
| Ok (a : A)
| Raise (e : exn).
Arguments Ok {A} a.
Arguments Raise {A} e.

Definition bind_names (names : list string) (ns : gmap string pyobj)
  : gmap string pyobj :=
  foldr (λ name acc, <[name := OObject name]> acc) ns names.

(** The part of Python's builtins the script mentions. *)
Definition builtins : gmap string pyobj :=
  bind_names
    ["print"; "input"; "open"; "range"; "len"; "min"; "enumerate";
     "RuntimeError"; "NameError"; "KeyError"; "AssertionError";
     "True"; "False"; "None"] ∅.

(** Lines 24-71: every name the import statements bind. *)
Definition imported : gmap string pyobj :=
  bind_names
    ["json"; "logging"; "os"; "sys"; "OrderedDict"; "vision"; "np"; "Image";
     "topi"; "tvm"; "rpc"; "autotvm"; "relay"; "graph_runtime"; "util";
     "download"; "XGBTuner"; "GATuner"; "RandomTuner"; "GridSearchTuner";
     "micro"; "create_micro_mod"; "host"; "stm32f746xx"; "MemConstraint";
     "transform"; "nn"; "get_const_tuple"; "get_const_int"; "get_pad_tuple";
     "conv2d"; "conv2d_nchw"; "schedule_conv2d_nchw"; "pad"; "simplify";
     "traverse_inline"; "CMSIS_PATH"; "CMSIS_INCLUDE_PATHS"; "NamedTensor";
     "NamedType"; "BakedType"; "print_c_source"; "custom_pick_best";
     "relay_micro_build"; "reset_gdbinit"; "get_comm_overhead";
     "benchmark_micro_func"; "check_conv2d_output"; "gen_cifar10_cnn";
     "collect_conv_tasks"; "conv2d_direct"; "conv2d_direct_simd";
     "conv2d_partial_im2col"] ∅.

(** Reading a name at module level or a global inside a function: the
    module namespace first, then the builtins, else [NameError]. *)
Definition load_name (ns : gmap string pyobj) (name : string) : result pyobj :=
  match ns !! name with
  | Some obj => Ok obj
  | None =>
      match builtins !! name with
      | Some obj => Ok obj
      | None => Raise (NameError name)
      end
  end.

(** ** The data handed to the framework *)

Inductive MemConstraint := ABSOLUTE_BYTES | WEIGHT.

Inductive pynum :=
| PyInt (n : Z)
| PyFloat (q : QArith_base.Q).

(** An [OrderedDict] of section name to (amount, kind of constraint). *)
Definition section_constraints : Type := list (string * (pynum * MemConstraint)).

(** A JSON-serialisable entry of the device configuration. *)
#[warnings="-register-all"]
Inductive value :=
| VNone
| VBool (b : bool)
| VInt (n : Z)
| VStr (s : string)
| VList (items : list value)
| VDict (entries : list (string * value)).

Inductive strategy := conv2d_direct | conv2d_direct_simd | conv2d_partial_im2col.

(** An autotvm task, as far as the script inspects it. *)
Record task := {
  task_name : string;
  config_space_len : nat;   (* len(task.config_space) *)
}.

Inductive LibType := RUNTIME | OPERATOR.

(** [tvm.micro.cross_compiler(dev_config, lib_type, lib_headers=..,
    lib_include_paths=..)] *)
Record build_func := {
  cc_dev_config : gmap string value;
  cc_lib_type : LibType;
  cc_lib_headers : pyobj;
  cc_lib_include_paths : pyobj;
}.

(** [autotvm.RPCRunner(key, host, port, n_parallel=.., number=..,
    timeout=..)] *)
Record RPCRunner := {
  runner_key : string;
  runner_host : string;
  runner_port : Z;
  runner_n_parallel : nat;
  runner_number : Z;
  runner_timeout : Z;
}.

(** [autotvm.measure_option(builder=autotvm.LocalBuilder(build_func=..),
    runner=..)] *)
Record measure_option := {
  mo_builder : build_func;
  mo_runner : RPCRunner;
}.

Inductive tuner :=
| XGBTuner (t : task)
| GATuner (t : task)
| RandomTuner (t : task)
| GridSearchTuner (t : task).

Inductive callback :=
| progress_bar (total : Z) (prefix : string)
| log_to_file (path : string).

(** The arguments of [gen_cifar10_cnn]; the graph it returns is identified
    with them. *)
Record cnn_request := {
  cnn_data_layout : string;
  cnn_kernel_layout : string;
  cnn_input_op_strategy : string;
  cnn_use_random_params : bool;
}.

(** Calls that leave the script, in the order they are made. *)
Inductive event :=
| EPrint (text : string)
| EInput (prompt : string)
| EConnectTracker (addr : string) (port : Z)
| ETextSummary
| ECrossCompiler (build : build_func)
| EMakeRunner (runner : RPCRunner)
| EMakeTuner (tn : tuner)
| ETune (tn : tuner) (n_trial early_stopping : Z) (mo : measure_option)
       (callbacks : list callback)
| EPickBest (in_file out_file : string) (top_k : Z)
| ERemove (path : string)
| EOpenWrite (path : string)
| EJsonDump (obj : gmap string value) (path : string) (indent : Z)
| ETaskExtractEnv
| ERegisterTemplate (name : string) (override : bool) (template : strategy)
| EGenCifar10Cnn (req : cnn_request)
| ECollectConvTasks (req : cnn_request) (target template_key : string).

(** What the script does not decide: the constants and functions of the
    framework and of the rest of the package, the process environment and
    what the tracker answers. *)
Record world := {
  stm32f746xx_DEVICE_ID : string;
  host_DEVICE_ID : string;
  stm32f746xx_generate_config :
    string → Z → option section_constraints → gmap string value;
  host_generate_config : option section_constraints → gmap string value;
  gen_mem_layout : section_constraints → value;
  default_layouts : strategy → string * string;
  collect_conv_tasks : cnn_request → string → string → list task;
  environ : gmap string string;
  tracker_summary : string;
  existing_files : gset string;   (* the files present when the script starts *)
}.

(** ** State and exceptions *)

(** The mutable part: the dictionary bound to [DEV_CONFIG], the calls
    made so far and the files that exist. *)
Record state := {
  DEV_CONFIG : gmap string value;
  trace : list event;
  files : gset string;
}.

Definition M (A : Type) : Type := state → result A * state.

Definition ret {A} (a : A) : M A := λ st, (Ok a, st).

Definition bind {A B} (m : M A) (k : A → M B) : M B :=
  λ st, match m st with
        | (Ok a, st') => k a st'
        | (Raise e, st') => (Raise e, st')
        end.

Definition raise {A} (e : exn) : M A := λ st, (Raise e, st).

Definition lift {A} (r : result A) : M A := λ st, (r, st).

#[global] Instance M_ret : MRet M := @ret.
#[global] Instance M_bind : MBind M := λ A B k m, bind m k.

(** A call that leaves the script. *)
Definition emit (e : event) : M unit :=
  λ st, (Ok tt, {| DEV_CONFIG := DEV_CONFIG st; trace := trace st ++ [e];
                   files := files st |}).

(** The state after further calls, the dictionary and the files left
    alone. *)
Definition add_events (evs : list event) (st : state) : state :=
  {| DEV_CONFIG := DEV_CONFIG st; trace := trace st ++ evs; files := files st |}.

(** [DEV_CONFIG[key] = v] *)
Definition set_item (key : string) (v : value) : M unit :=
  λ st, (Ok tt, {| DEV_CONFIG := <[key := v]> (DEV_CONFIG st); trace := trace st;
                   files := files st |}).

(** A file comes into existence (or is written again). *)
Definition create_file (path : string) : M unit :=
  λ st, (Ok tt, {| DEV_CONFIG := DEV_CONFIG st; trace := trace st;
                   files := files st ∪ {[path]} |}).

(** What [os.remove(path)] does once called: the file goes, or there was
    none. *)
Definition unlink (path : string) : M unit :=
  λ st, if bool_decide (path ∈ files st)
        then (Ok tt, {| DEV_CONFIG := DEV_CONFIG st; trace := trace st;
                        files := files st ∖ {[path]} |})
        else (Raise (FileNotFoundError path), st).

(** Reading the dictionary object bound to [DEV_CONFIG]. *)
Definition get_dev_config : M (gmap string value) :=
  λ st, (Ok (DEV_CONFIG st), st).

(** [for x in xs: body(x)] *)
Fixpoint for_each {A} (xs : list A) (body : A → M unit) : M unit :=
  match xs with
  | [] => ret tt
  | x :: rest => body x;; for_each rest body
  end.

(** [range(n)] *)
Definition range (n : nat) : list nat := seq 0 n.

(** [enumerate(xs)] *)
Definition enumerate {A} (xs : list A) : list (nat * A) :=
  zip (seq 0 (length xs)) xs.

(** [os.remove(path)] *)
Definition os_remove (path : string) : M unit :=
  emit (ERemove path);; unlink path.

(** The files a list of callbacks logs to. *)
Definition log_targets (callbacks : list callback) : list string :=
  omap (λ cb, match cb with log_to_file path => Some path | _ => None end) callbacks.

(** [tuner.tune(n_trial=.., early_stopping=.., measure_option=..,
    callbacks=..)]: the run records results, which each [log_to_file]
    callback appends to its file. *)
Definition tuner_tune (tn : tuner) (n_trial early_stopping : Z)
           (mo : measure_option) (callbacks : list callback) : M unit :=
  emit (ETune tn n_trial early_stopping mo callbacks);;
  for_each (log_targets callbacks) create_file.

(** Exceptions at module level, where there is no state yet. *)
Definition result_bind {A B} (r : result A) (k : A → result B) : result B :=
  match r with
  | Ok a => k a
  | Raise e => Raise e
  end.

#[global] Instance result_ret : MRet result := @Ok.
#[global] Instance result_mbind : MBind result := λ A B k r, result_bind r k.

(** ** The module *)

(** What the device dispatch of lines 124-155 binds. *)
Record device_setup := {
  generate_config : option section_constraints → gmap string value;
  setup_MICRO_HEADERS : pyobj;
  setup_MICRO_INCLUDE_PATHS : pyobj;
  OP_STRATEGIES : list strategy;
}.

Definition N_TRIAL : Z := 500.
Definition EARLY_STOPPING : Z := 250.
Definition N_PER_TRIAL : Z := 15.
Definition N_PARALLEL : option nat := None.
Definition TRACKER_ADDR : string := "0.0.0.0".
Definition TRACKER_PORT : Z := 9190.
(* disable timeouts because JTAG is slow *)
Definition TIMEOUT : Z := 0.
Definition TARGET : string := "c -device=micro_dev".

Section Script.

Context (w : world).

(** Line 121. *)
Definition DEVICE_ID : string := host_DEVICE_ID w.

(** Lines 121-122, run on the namespace the imports leave, for a given
    value of the device setting. *)
Definition prelude (device_id : string) : gmap string pyobj :=
  <["TARGET" := OObject "TARGET"]> (<["DEVICE_ID" := OStr device_id]> imported).

(** Lines 125-142, the body of the [if]. *)
Definition stm32f746xx_branch (ns : gmap string pyobj)
  : result (gmap string pyobj * device_setup) :=
  let SERVER_ADDR := "127.0.0.1" in
  let SERVER_PORT := 6666%Z in
  let ns := <["SERVER_ADDR" := OStr SERVER_ADDR]> ns in
  let ns := <["SERVER_PORT" := OInt SERVER_PORT]> ns in
  let ns := <["generate_config" := OObject "generate_config"]> ns in
  headers ← load_name ns "CMSIS_HEADERS";
  let ns := <["MICRO_HEADERS" := headers]> ns in
  include_paths ← load_name ns "CMSIS_INCLUDE_PATHS";
  let ns := <["MICRO_INCLUDE_PATHS" := include_paths]> ns in
  let ns := <["OP_STRATEGIES" := OObject "OP_STRATEGIES"]> ns in
  Ok (ns,
      {| generate_config := stm32f746xx_generate_config w SERVER_ADDR SERVER_PORT;
         setup_MICRO_HEADERS := headers;
         setup_MICRO_INCLUDE_PATHS := include_paths;
         OP_STRATEGIES := [conv2d_direct; conv2d_direct_simd; conv2d_direct_simd] |}).

(** Lines 144-153, the body of the [elif]. *)
Definition host_setup : device_setup :=
  {| generate_config := host_generate_config w;
     setup_MICRO_HEADERS := ONone;
     setup_MICRO_INCLUDE_PATHS := ONone;
     (* we don't have SIMD schedules for the host *)
     OP_STRATEGIES := [conv2d_direct; conv2d_direct; conv2d_direct] |}.

Definition host_branch (ns : gmap string pyobj) : gmap string pyobj :=
  let ns := <["generate_config" := OObject "generate_config"]> ns in
  let ns := <["MICRO_HEADERS" := ONone]> ns in
  let ns := <["MICRO_INCLUDE_PATHS" := ONone]> ns in
  <["OP_STRATEGIES" := OObject "OP_STRATEGIES"]> ns.

(** Line 155, the body of the [else]: the exception class is looked up,
    called on the message, and the instance is raised. *)
Definition unknown_device_branch (device_id : string) (ns : gmap string pyobj)
  : result (gmap string pyobj * device_setup) :=
  cls ← load_name ns "RuntimeErorr";
  Raise (Raised (py_str cls)
           ("unknown device ID " +:+ PyStr.dquote +:+ device_id +:+ PyStr.dquote)).

(** Lines 124-155. *)
Definition device_dispatch (device_id : string) (ns : gmap string pyobj)
  : result (gmap string pyobj * device_setup) :=
  if String.eqb device_id (stm32f746xx_DEVICE_ID w) then stm32f746xx_branch ns
  else if String.eqb device_id (host_DEVICE_ID w) then Ok (host_branch ns, host_setup)
  else unknown_device_branch device_id ns.

(** Lines 157-436: the remaining assignments and the [def]s. *)
Definition rest_of_module (ns : gmap string pyobj) : gmap string pyobj :=
  let ns := <["DEV_CONFIG" := OObject "DEV_CONFIG"]> ns in
  let ns := <["N_TRIAL" := OInt N_TRIAL]> ns in
  let ns := <["EARLY_STOPPING" := OInt EARLY_STOPPING]> ns in
  let ns := <["N_PER_TRIAL" := OInt N_PER_TRIAL]> ns in
  let ns := <["N_PARALLEL" := ONone]> ns in
  let ns := <["TRACKER_ADDR" := OStr TRACKER_ADDR]> ns in
  let ns := <["TRACKER_PORT" := OInt TRACKER_PORT]> ns in
  let ns := <["TUNE_OPS" := OObject "TUNE_OPS"]> ns in
  let ns := <["TIMEOUT" := OInt TIMEOUT]> ns in
  bind_names ["get_num_devices"; "tune_model"; "update_rpc_server_dev_cfg";
              "get_tasks"; "main"] ns.

(** Executing the module top to bottom for a given device setting: the
    namespace it leaves, the device setup, and the dictionary first bound
    to [DEV_CONFIG] (line 157). *)
Definition module_init (device_id : string)
  : result (gmap string pyobj * device_setup * gmap string value) :=
  '(ns, setup) ← device_dispatch device_id (prelude device_id);
  Ok (rest_of_module ns, setup, generate_config setup None).

(** The namespace the functions below run in: the module as written
    takes the host branch. *)
Definition module_namespace : gmap string pyobj :=
  rest_of_module (host_branch (prelude DEVICE_ID)).

Definition MICRO_HEADERS : pyobj := setup_MICRO_HEADERS host_setup.
Definition MICRO_INCLUDE_PATHS : pyobj := setup_MICRO_INCLUDE_PATHS host_setup.

(** The state [main] starts in. *)
Definition initial_state : state :=
  {| DEV_CONFIG := generate_config host_setup None; trace := [];
     files := existing_files w |}.

(** ** The functions *)

(** The loop of lines 221-225 over the lines still to be read, with the
    counter so far; [break] returns the counter. *)
Fixpoint count_connected (dev_id : string) (lines : list string)
         (num_connected : nat) : nat :=
  match lines with
  | [] => num_connected
  | line :: rest =>
      if PyStr.contains "Queue Status" line then num_connected
      else if PyStr.contains dev_id line
           then count_connected dev_id rest (num_connected + 1)
           else count_connected dev_id rest num_connected
  end.

(** Lines 217-226. *)
Definition get_num_devices (dev_id : string) : M nat :=
  emit (EConnectTracker TRACKER_ADDR TRACKER_PORT);;
  emit ETextSummary;;
  let summary := tracker_summary w in
  mret (count_connected dev_id (PyStr.split_lines summary) 0).

(** One iteration of the loop of lines 258-270. *)
Definition tune_task (mo : measure_option) (tmp_log_file : string)
           (n_tasks : nat) (it : nat * task) : M unit :=
  let '(i, t) := it in
  let prefix :=
    "[Task " +:+ PyStr.fmt_2d (i + 1) +:+ "/" +:+ PyStr.fmt_2d n_tasks +:+ "] " in
  let tn := GATuner t in
  emit (EMakeTuner tn);;
  (* start tuning *)
  tuner_tune tn
    (Z.min N_TRIAL (Z.of_nat (config_space_len t)))
    EARLY_STOPPING
    mo
    [progress_bar N_TRIAL prefix; log_to_file tmp_log_file].

(** Lines 229-283. *)
Definition tune_model (tasks : list task) (log_file_name : string) : M unit :=
  n_parallel ← match N_PARALLEL with
               | None => get_num_devices DEVICE_ID
               | Some n => mret n
               end;
  emit (EPrint "[Tuning]");;
  dev_config ← get_dev_config;
  let build :=
    {| cc_dev_config := dev_config;
       cc_lib_type := OPERATOR;
       cc_lib_headers := MICRO_HEADERS;
       cc_lib_include_paths := MICRO_INCLUDE_PATHS |} in
  emit (ECrossCompiler build);;
  let runner :=
    {| runner_key := DEVICE_ID;
       runner_host := TRACKER_ADDR;
       runner_port := TRACKER_PORT;
       runner_n_parallel := n_parallel;
       runner_number := N_PER_TRIAL;
       runner_timeout := TIMEOUT |} in
  emit (EMakeRunner runner);;
  let mo := {| mo_builder := build; mo_runner := runner |} in
  (* create tmp log file *)
  let tmp_log_file := log_file_name +:+ ".tmp" in
  for_each (enumerate tasks) (tune_task mo tmp_log_file (length tasks));;
  (* store best record in a cache file *)
  emit (EPickBest tmp_log_file log_file_name 5);;
  os_remove tmp_log_file.

Definition ABS (n : Z) : pynum * MemConstraint := (PyInt n, ABSOLUTE_BYTES).

(** The three [OrderedDict]s of lines 324-357. *)
Definition direct_sections : section_constraints :=
  [("text", ABS 18000); ("rodata", ABS 100); ("data", ABS 100);
   ("bss", ABS 600); ("args", ABS 4096);
   ("heap", (PyFloat (QArith_base.Qmake 100 1), WEIGHT));
   ("workspace", ABS 13000); ("stack", ABS 128)].

Definition direct_simd_sections : section_constraints :=
  [("text", ABS 18000); ("rodata", ABS 100); ("data", ABS 100);
   ("bss", ABS 600); ("args", ABS 4096);
   ("heap", (PyFloat (QArith_base.Qmake 100 1), WEIGHT));
   ("workspace", ABS 13000); ("stack", ABS 128)].

Definition partial_im2col_sections : section_constraints :=
  [("text", ABS 18000); ("rodata", ABS 100); ("data", ABS 100);
   ("bss", ABS 600); ("args", ABS 4096);
   ("heap", (PyFloat (QArith_base.Qmake 100 1), WEIGHT));
   ("workspace", ABS 132000); ("stack", ABS 128)].

(** [os.environ[key]] *)
Definition environ_get (key : string) : M string :=
  match environ w !! key with
  | Some v => mret v
  | None => raise (KeyError key)
  end.

(** The body of the loop of lines 362-365.  The path is formatted from
    the global [RPC_SERVER_DEV_CONFIG_BASE], not from the local
    [dev_config_base]. *)
Definition write_dev_config (dev_config_base : string) (i : nat) : M unit :=
  set_item "server_port" (VInt (6666 + Z.of_nat i));;
  base ← lift (load_name module_namespace "RPC_SERVER_DEV_CONFIG_BASE");
  let path := py_str base +:+ "/" +:+ PyStr.of_nat i +:+ "/utvm_dev_config.json" in
  emit (EOpenWrite path);;
  create_file path;;
  dev_config ← get_dev_config;
  emit (EJsonDump dev_config path 4).

(** Lines 314-365. *)
Definition update_rpc_server_dev_cfg (template_key : string) : M unit :=
  if negb (bool_decide (is_Some (environ w !! "MICRO_RPC_SERVER_DEV_CONFIG_BASE")))
  then
    emit (EPrint "WARNING: `RPC_SERVER_DEV_CONFIG_BASE` not in environment. RPC server config will not be auto-updated");;
    emit (EInput "[press enter to continue]");;
    mret tt
  else
    (if String.eqb template_key "direct" then
       set_item "mem_layout" (gen_mem_layout w direct_sections)
     else if String.eqb template_key "direct_simd" then
       set_item "mem_layout" (gen_mem_layout w direct_simd_sections)
     else if String.eqb template_key "partial_im2col" then
       set_item "mem_layout" (gen_mem_layout w partial_im2col_sections)
     else
       raise AssertionError);;
    dev_config_base ← environ_get "MICRO_RPC_SERVER_DEV_CONFIG_BASE";
    for_each (range 10) (write_dev_config dev_config_base).

(** Lines 368-419. *)
Definition get_tasks (template_key : string) : M (list task) :=
  emit ETaskExtractEnv;;
  '(data_layout, kernel_layout) ←
    (if String.eqb template_key "direct" then
       emit (ERegisterTemplate "topi_nn_conv2d" true conv2d_direct);;
       mret (default_layouts w conv2d_direct)
     else if String.eqb template_key "direct_simd" then
       mret (default_layouts w conv2d_direct_simd)
     else if String.eqb template_key "partial_im2col" then
       mret (default_layouts w conv2d_partial_im2col)
     else
       raise AssertionError);
  let req :=
    {| cnn_data_layout := data_layout;
       cnn_kernel_layout := kernel_layout;
       cnn_input_op_strategy := template_key;
       cnn_use_random_params := true |} in
  emit (EGenCifar10Cnn req);;
  emit (ECollectConvTasks req TARGET template_key);;
  let tasks := collect_conv_tasks w req TARGET template_key in
  emit (EPrint ("extracted " +:+ PyStr.of_nat (length tasks) +:+ " tasks"));;
  if (length tasks =? 3)%nat then mret tasks else raise AssertionError.

Definition TEMPLATE_KEYS : list string := ["direct"].

(** The body of the loop of lines 426-432. *)
Definition tuning_phase (template_key : string) : M unit :=
  let log_file_name := DEVICE_ID +:+ "." +:+ template_key +:+ ".e2e.log" in
  update_rpc_server_dev_cfg template_key;;
  tasks ← get_tasks template_key;
  tune_model tasks log_file_name.

(** Lines 422-432. *)
Definition main : M unit := for_each TEMPLATE_KEYS tuning_phase.

End Script.

(** ** What the claims compare the code with *)

(** Position of the first line satisfying [p]. *)
Fixpoint first_index (p : string → bool) (lines : list string) : option nat :=
  match lines with
  | [] => None
  | line :: rest => if p line then Some 0 else S <$> first_index p rest
  end.

(** The lines strictly before the first one containing ['Queue Status'];
    all of them when there is none. *)
Definition lines_before_queue_status (lines : list string) : list string :=
  take (default (length lines) (first_index (PyStr.contains "Queue Status") lines))
       lines.

(** How many of those lines contain the device identifier. *)
Definition connected_devices (dev_id summary : string) : nat :=
  length (List.filter (PyStr.contains dev_id)
            (lines_before_queue_status (PyStr.split_lines summary))).

(** The events a computation adds to the trace. *)
Definition tuned (e : event) : option (tuner * Z * Z) :=
  match e with
  | ETune tn n_trial early_stopping _ _ => Some (tn, n_trial, early_stopping)
  | _ => None
  end.

Definition tuned_by (e : event) : option (tuner * measure_option) :=
  match e with
  | ETune tn _ _ mo _ => Some (tn, mo)
  | _ => None
  end.

Definition made_tuner (e : event) : option tuner :=
  match e with
  | EMakeTuner tn => Some tn
  | _ => None
  end.

Definition made_runner (e : event) : option RPCRunner :=
  match e with
  | EMakeRunner r => Some r
  | _ => None
  end.

Definition logged_to (e : event) : option (list string) :=
  match e with
  | ETune _ _ _ _ callbacks => Some (log_targets callbacks)
  | _ => None
  end.

Definition touches_log_files (e : event) : bool :=
  match e with
  | EPickBest _ _ _ | ERemove _ => true
  | _ => false
  end.

Definition writes_file (e : event) : bool :=
  match e with
  | EOpenWrite _ | EJsonDump _ _ _ => true
  | _ => false
  end.

Definition written_config (e : event) : option (string * gmap string value) :=
  match e with
  | EJsonDump obj path _ => Some (path, obj)
  | _ => None
  end.

Definition is_phase_call (e : event) : bool :=
  match e with
  | ETaskExtractEnv | EGenCifar10Cnn _ | ECollectConvTasks _ _ _
  | ECrossCompiler _ | EMakeRunner _ | EMakeTuner _ | ETune _ _ _ _ _
  | EPickBest _ _ _ | ERemove _ => true
  | _ => false
  end.

(** The calls one iteration of the tuning loop makes. *)
Definition tune_task_events (mo : measure_option) (tmp_log_file : string)
           (n_tasks : nat) (it : nat * task) : list event :=
  [EMakeTuner (GATuner it.2);
   ETune (GATuner it.2)
         (Z.min 500 (Z.of_nat (config_space_len it.2)))
         250
         mo
         [progress_bar 500
            ("[Task " +:+ PyStr.fmt_2d (it.1 + 1) +:+ "/" +:+ PyStr.fmt_2d n_tasks +:+ "] ");
          log_to_file tmp_log_file]].

(** The measure option [tune_model] builds when it finds the dictionary
    [dev_config] bound to [DEV_CONFIG]. *)
Definition tuning_measure_option (w : world) (dev_config : gmap string value)
  : measure_option :=
  {| mo_builder :=
       {| cc_dev_config := dev_config;
          cc_lib_type := OPERATOR;
          cc_lib_headers := ONone;
          cc_lib_include_paths := ONone |};
     mo_runner :=
       {| runner_key := host_DEVICE_ID w;
          runner_host := "0.0.0.0";
          runner_port := 9190;
          runner_n_parallel := connected_devices (host_DEVICE_ID w) (tracker_summary w);
          runner_number := 15;
          runner_timeout := 0 |} |}.

(** The calls of the tuning loop over all tasks. *)
Definition tuning_events (w : world) (dev_config : gmap string value)
           (tasks : list task) (log_file_name : string) : list event :=
  flat_map (tune_task_events (tuning_measure_option w dev_config)
              (log_file_name +:+ ".tmp") (length tasks))
           (enumerate tasks).

(** The calls before the tuning loop. *)
Definition tuning_setup_events (w : world) (dev_config : gmap string value)
  : list event :=
  [EConnectTracker "0.0.0.0" 9190; ETextSummary; EPrint "[Tuning]";
   ECrossCompiler (mo_builder (tuning_measure_option w dev_config));
   EMakeRunner (mo_runner (tuning_measure_option w dev_config))].

(** The graph [get_tasks] asks for under a template key. *)
Definition template_strategy (template_key : string) : option strategy :=
  if String.eqb template_key "direct" then Some conv2d_direct
  else if String.eqb template_key "direct_simd" then Some conv2d_direct_simd
  else if String.eqb template_key "partial_im2col" then Some conv2d_partial_im2col
  else None.

Definition cnn_request_for (w : world) (template_key : string) (s : strategy)
  : cnn_request :=
  {| cnn_data_layout := (default_layouts w s).1;
     cnn_kernel_layout := (default_layouts w s).2;
     cnn_input_op_strategy := template_key;
     cnn_use_random_params := true |}.

(** The calls of [get_tasks] under a recognized key. *)
Definition get_tasks_events (w : world) (template_key : string) (s : strategy)
  : list event :=
  let req := cnn_request_for w template_key s in
  [ETaskExtractEnv]
  ++ (if String.eqb template_key "direct"
      then [ERegisterTemplate "topi_nn_conv2d" true conv2d_direct] else [])
  ++ [EGenCifar10Cnn req;
      ECollectConvTasks req "c -device=micro_dev" template_key;
      EPrint ("extracted "
              +:+ PyStr.of_nat (length (collect_conv_tasks w req "c -device=micro_dev" template_key))
              +:+ " tasks")].

(** The memory layout [update_rpc_server_dev_cfg] asks for under a key. *)
Definition sections_for (s : strategy) : section_constraints :=
  match s with
  | conv2d_direct => direct_sections
  | conv2d_direct_simd => direct_simd_sections
  | conv2d_partial_im2col => partial_im2col_sections
  end.

Definition warning_events : list event :=
  [EPrint "WARNING: `RPC_SERVER_DEV_CONFIG_BASE` not in environment. RPC server config will not be auto-updated";
   EInput "[press enter to continue]"].

(** The state after a computation that made the calls [evs] and left
    the files [fs] in existence, the dictionary being as before. *)
Definition after (evs : list event) (fs : gset string) (st : state) : state :=
  {| DEV_CONFIG := DEV_CONFIG st; trace := trace st ++ evs; files := fs |}.

(** How [tune_model] ends: its last call removes the temporary log file,
    which exists if a tuning run logged to it or if it was there before. *)
Definition tune_model_outcome (tasks : list task) (log_file_name : string)
           (st : state) : result unit :=
  match tasks with
  | [] =>
      if bool_decide (log_file_name +:+ ".tmp" ∈ files st) then Ok tt
      else Raise (FileNotFoundError (log_file_name +:+ ".tmp"))
  | _ :: _ => Ok tt
  end.

(** The three template keys the script knows. *)
Definition recognized (template_key : string) : bool :=
  String.eqb template_key "direct" || String.eqb template_key "direct_simd"
  || String.eqb template_key "partial_im2col".

(** ** Concrete worlds *)

Definition lab_summary : string :=
  PyStr.join_lines
    ["Server List";
     "----------------------------";
     "server-address  key";
     "----------------------------";
     "127.0.0.1:41000 server:host";
     "127.0.0.1:41002 server:host";
     "127.0.0.1:41004 server:arm.stm32f746xx";
     "----------------------------";
     "";
     "Queue Status";
     "----------------------------";
     "key   total  free  pending";
     "----------------------------";
     "host  2      2     0";
     "----------------------------"].

Definition lab_tasks : list task :=
  [{| task_name := "conv2d_0"; config_space_len := 784 |};
   {| task_name := "conv2d_1"; config_space_len := 120 |};
   {| task_name := "conv2d_2"; config_space_len := 5000 |}].

Definition lab_layout (sections : section_constraints) : value :=
  VDict (List.map (λ '(name, (amount, _)),
                     (name, match amount with PyInt n => VInt n | PyFloat _ => VNone end))
                  sections).

Definition lab_config : gmap string value :=
  {[ "toolchain_prefix" := VStr ""; "use_device_timer" := VBool false;
     "comms_method" := VStr "host"; "mem_layout" := VNone ]}.

(** A host set-up, with a chosen environment and extraction result. *)
Definition lab (env : gmap string string) (tasks : list task) : world :=
  {| stm32f746xx_DEVICE_ID := "arm.stm32f746xx";
     host_DEVICE_ID := "host";
     stm32f746xx_generate_config := λ _ _ _, lab_config;
     host_generate_config := λ _, lab_config;
     gen_mem_layout := lab_layout;
     default_layouts := λ _, ("NHWC", "HWIO");
     collect_conv_tasks := λ _ _ _, tasks;
     environ := env;
     tracker_summary := lab_summary;
     existing_files := ∅ |}.

Definition env_without_base : gmap string string := {[ "HOME" := "/root" ]}.

Definition env_with_base : gmap string string :=
  {[ "HOME" := "/root"; "MICRO_RPC_SERVER_DEV_CONFIG_BASE" := "/srv/utvm" ]}.

(** ** Further readings of the trace and the whole script *)

(** A field of a split text holds no newline. *)
Fixpoint no_newline (s : string) : bool :=
  match s with
  | EmptyString => true
  | String c rest => negb (Ascii.eqb c PyStr.newline) && no_newline rest
  end.



Definition cross_compiled (e : event) : option build_func :=
  match e with
  | ECrossCompiler build => Some build
  | _ => None
  end.

Definition registered (e : event) : option (string * bool * strategy) :=
  match e with
  | ERegisterTemplate name override template => Some (name, override, template)
  | _ => None
  end.

(** The template key a call of the extraction is made for. *)
Definition extraction_key (e : event) : option string :=
  match e with
  | EGenCifar10Cnn req => Some (cnn_input_op_strategy req)
  | ECollectConvTasks _ _ template_key => Some template_key
  | _ => None
  end.

Definition asks_tracker (e : event) : bool :=
  match e with
  | EConnectTracker _ _ | ETextSummary => true
  | _ => false
  end.

(** Running the file as a script: the module body with the device setting
    of line 121, then, by lines 435-436, [main] on the dictionary line 157
    bound.  When the module body raises there is no state to speak of. *)
Definition script (w : world) : result unit * option state :=
  match module_init w (DEVICE_ID w) with
  | Ok (_, _, dev_config) =>
      let '(r, st) :=
        main w {| DEV_CONFIG := dev_config; trace := []; files := existing_files w |} in
      (r, Some st)
  | Raise e => (Raise e, None)
  end.

(** A set-up whose two device identifiers coincide. *)
Definition lab_same_ids : world :=
  {| stm32f746xx_DEVICE_ID := "host";
     host_DEVICE_ID := "host";
     stm32f746xx_generate_config := λ _ _ _, lab_config;
     host_generate_config := λ _, lab_config;
     gen_mem_layout := lab_layout;
     default_layouts := λ _, ("NHWC", "HWIO");
     collect_conv_tasks := λ _ _ _, lab_tasks;
     environ := env_without_base;
     tracker_summary := lab_summary;
     existing_files := ∅ |}.

(** A tracker that lists servers and prints no queue table. *)
Definition lab_no_queue (summary : string) : world :=
  {| stm32f746xx_DEVICE_ID := "arm.stm32f746xx";
     host_DEVICE_ID := "host";
     stm32f746xx_generate_config := λ _ _ _, lab_config;
     host_generate_config := λ _, lab_config;
     gen_mem_layout := lab_layout;
     default_layouts := λ _, ("NHWC", "HWIO");
     collect_conv_tasks := λ _ _ _, lab_tasks;
     environ := env_without_base;
     tracker_summary := summary;
     existing_files := ∅ |}.

Definition lab_server_lines : list string :=
  ["Server List";
   "----------------------------";
   "server-address  key";
   "----------------------------";
   "127.0.0.1:41000 server:host";
   "127.0.0.1:41002 server:host";
   "127.0.0.1:41004 server:arm.stm32f746xx";
   "----------------------------";
   ""].

Definition lab_queue_lines : list string :=
  ["----------------------------";
   "key   total  free  pending";
   "----------------------------";
   "host  2      2     0";
   "----------------------------"].

(** * Properties *)

(** ** Strings *)

Lemma prefix_app (p s : string) :
  String.prefix p s = true ↔ ∃ rest, s = p +:+ rest.
Proof.
  revert s. induction p as [|c p IH]; intros s.
  - split; [intros _; by exists s | by destruct s].
  - destruct s as [|d s]; simpl.
    + split; [done | intros [rest Hrest]; discriminate].
    + destruct (Ascii.ascii_dec c d) as [->|Hne].
      * rewrite IH. split; intros [rest Hrest]; exists rest.
        -- by rewrite Hrest.
        -- simpl in Hrest. by injection Hrest.
      * split; [done | intros [rest Hrest]; injection Hrest; congruence].
Qed.

Lemma contains_empty_hay (needle : string) :
  PyStr.contains needle "" = String.prefix needle "".
Proof. unfold PyStr.contains. apply orb_false_r. Qed.

Lemma contains_cons (needle : string) (c : ascii) (hay : string) :
  PyStr.contains needle (String c hay)
  = String.prefix needle (String c hay) || PyStr.contains needle hay.
Proof. reflexivity. Qed.

(** [contains] is Python's substring test. *)
Lemma contains_substring (needle hay : string) :
  PyStr.contains needle hay = true ↔ ∃ before after, hay = before +:+ needle +:+ after.
Proof.
  induction hay as [|c hay IH].
  - rewrite contains_empty_hay, prefix_app. split.
    + intros [rest ->]. by exists "", rest.
    + intros (before & after & Heq). destruct before; [|discriminate].
      by exists after.
  - rewrite contains_cons, orb_true_iff, prefix_app, IH. split.
    + intros [[rest ->] | (before & after & ->)].
      * by exists "", rest.
      * by exists (String c before), after.
    + intros (before & after & Heq). destruct before as [|d before].
      * left. by exists after.
      * right. injection Heq as _ ->. by exists before, after.
Qed.

Lemma split_lines_nonempty (s : string) : PyStr.split_lines s ≠ [].
Proof.
  destruct s as [|c s]; simpl; [done |].
  destruct (Ascii.eqb c PyStr.newline); [done |].
  by destruct (PyStr.split_lines s).
Qed.

(** Splitting loses nothing: joining the fields with newlines gives the
    text back. *)
Lemma join_split_lines (s : string) : PyStr.join_lines (PyStr.split_lines s) = s.
Proof.
  induction s as [|c s IH]; simpl; [done |].
  destruct (Ascii.eqb_spec c PyStr.newline) as [->|Hne].
  - pose proof (split_lines_nonempty s) as Hs.
    simpl. destruct (PyStr.split_lines s) as [|f fs]; [done |].
    by rewrite IH.
  - pose proof (split_lines_nonempty s) as Hs.
    destruct (PyStr.split_lines s) as [|f fs]; [done |].
    simpl in *. destruct fs; simpl in *; by rewrite <- IH.
Qed.

(** [first_index] finds the first position, and only that one. *)
Lemma first_index_Some (p : string → bool) (lines : list string) (k : nat) :
  first_index p lines = Some k ↔
  (∃ line, lines !! k = Some line ∧ p line = true) ∧
  (∀ j line, (j < k)%nat → lines !! j = Some line → p line = false).
Proof.
  revert k. induction lines as [|l lines IH]; intros k; simpl.
  - split; [done | intros [(line & Hl & _) _]; done].
  - destruct (p l) eqn:Hp.
    + split.
      * intros [= <-]. split; [by exists l | intros j line Hj; lia].
      * intros [_ Hall]. destruct k as [|k]; [done |].
        specialize (Hall 0%nat l ltac:(lia) eq_refl). congruence.
    + destruct k as [|k].
      * split.
        -- destruct (first_index p lines); done.
        -- intros [(line & [= ->] & Hline) _]. congruence.
      * rewrite fmap_Some. split.
        -- intros (k' & Hk' & [= ->]). apply IH in Hk' as [Hex Hall].
           split; [done |]. intros [|j] line Hj Hline; simpl in Hline.
           ++ congruence.
           ++ apply (Hall j); [lia | done].
        -- intros [Hex Hall]. exists k. split; [|done]. apply IH.
           split; [done |]. intros j line Hj Hline.
           apply (Hall (S j)); [lia | done].
Qed.

Lemma first_index_None (p : string → bool) (lines : list string) :
  first_index p lines = None ↔ ∀ line, line ∈ lines → p line = false.
Proof.
  induction lines as [|l lines IH]; simpl.
  - split; [intros _ line Hin; by apply elem_of_nil in Hin | done].
  - destruct (p l) eqn:Hp.
    + split; [done |]. intros Hall. specialize (Hall l ltac:(left)). congruence.
    + rewrite fmap_None, IH. split.
      * intros Hall line [->|Hin]%elem_of_cons; auto.
      * intros Hall line Hin. apply Hall. by right.
Qed.

(** ** Running the monad *)

(** Unfolding the monad on a straight-line computation. *)
Ltac run_monad :=
  unfold mbind, M_bind, bind, mret, M_ret, ret, raise, lift, emit, get_dev_config,
    set_item, create_file, add_events; simpl.

Lemma add_events_nil (st : state) : add_events [] st = st.
Proof. destruct st. unfold add_events. simpl. by rewrite app_nil_r. Qed.

Lemma add_events_app (a b : list event) (st : state) :
  add_events b (add_events a st) = add_events (a ++ b) st.
Proof. unfold add_events. simpl. by rewrite app_assoc. Qed.

Lemma bind_ok {A B} (m : M A) (k : A → M B) (st st' : state) (a : A) :
  m st = (Ok a, st') → (m ≫= k) st = k a st'.
Proof. intros H. unfold mbind, M_bind, bind. by rewrite H. Qed.

Lemma bind_raise {A B} (m : M A) (k : A → M B) (st st' : state) (e : exn) :
  m st = (Raise e, st') → (m ≫= k) st = (Raise e, st').
Proof. intros H. unfold mbind, M_bind, bind. by rewrite H. Qed.

Lemma emit_run (e : event) (st : state) : emit e st = (Ok tt, add_events [e] st).
Proof. reflexivity. Qed.

(** A loop whose body only makes calls makes the calls of all iterations,
    in order. *)
Lemma for_each_emits {A} (f : A → list event) (body : A → M unit) (xs : list A) :
  (∀ x st, body x st = (Ok tt, add_events (f x) st)) →
  ∀ st, for_each xs body st = (Ok tt, add_events (flat_map f xs) st).
Proof.
  intros Hbody. induction xs as [|x xs IH]; intros st; simpl.
  - by rewrite add_events_nil.
  - rewrite (bind_ok _ _ _ _ _ (Hbody x st)), IH. by rewrite add_events_app.
Qed.

Lemma enumerate_snd {A} (xs : list A) : (enumerate xs).*2 = xs.
Proof. unfold enumerate. apply snd_zip. by rewrite length_seq. Qed.

(** Reading facts off the calls of a loop: one fact per iteration. *)
Lemma omap_flat_map_one {A B} (g : event → option B) (f : A → list event)
      (h : A → B) (xs : list A) :
  (∀ x, omap g (f x) = [h x]) → omap g (flat_map f xs) = h <$> xs.
Proof.
  intros Hone. induction xs as [|x xs IH]; simpl; [done |].
  by rewrite omap_app, Hone, IH.
Qed.

Lemma omap_flat_map_none {A B} (g : event → option B) (f : A → list event)
      (xs : list A) :
  (∀ x, omap g (f x) = []) → omap g (flat_map f xs) = [].
Proof.
  intros Hnone. induction xs as [|x xs IH]; simpl; [done |].
  by rewrite omap_app, Hnone, IH.
Qed.

Lemma existsb_flat_map_false {A} (g : event → bool) (f : A → list event)
      (xs : list A) :
  (∀ x, existsb g (f x) = false) → existsb g (flat_map f xs) = false.
Proof.
  intros Hnone. induction xs as [|x xs IH]; simpl; [done |].
  by rewrite existsb_app, Hnone, IH.
Qed.

(** ** The device count *)

Lemma count_connected_acc (dev_id : string) (lines : list string) (n : nat) :
  count_connected dev_id lines n
  = (n + length (List.filter (PyStr.contains dev_id) (lines_before_queue_status lines)))%nat.
Proof.
  revert n. unfold lines_before_queue_status.
  induction lines as [|line lines IH]; intros n; simpl; [lia |].
  destruct (PyStr.contains "Queue Status" line) eqn:Hq; simpl; [lia |].
  assert (Htake :
    take (default (S (length lines))
            (S <$> first_index (PyStr.contains "Queue Status") lines))
         (line :: lines)
    = line :: take (default (length lines)
                      (first_index (PyStr.contains "Queue Status") lines)) lines).
  { by destruct (first_index _ lines). }
  rewrite Htake. simpl.
  destruct (PyStr.contains dev_id line); rewrite IH; simpl; lia.
Qed.

Lemma get_num_devices_run (w : world) (dev_id : string) (st : state) :
  get_num_devices w dev_id st
  = (Ok (connected_devices dev_id (tracker_summary w)),
     add_events [EConnectTracker "0.0.0.0" 9190; ETextSummary] st).
Proof.
  unfold get_num_devices, connected_devices.
  rewrite (bind_ok _ _ _ _ _ (emit_run _ st)).
  rewrite (bind_ok _ _ _ _ _ (emit_run _ _)).
  rewrite add_events_app, count_connected_acc. reflexivity.
Qed.

(** ** The tuning run *)

Lemma after_add_events (evs : list event) (st : state) :
  add_events evs st = after evs (files st) st.
Proof. reflexivity. Qed.

Lemma after_after (a b : list event) (fa fb : gset string) (st : state) :
  after b fb (after a fa st) = after (a ++ b) fb st.
Proof. unfold after. simpl. by rewrite app_assoc. Qed.

Lemma after_files_eq (evs : list event) (fa fb : gset string) (st : state) :
  fa = fb → after evs fa st = after evs fb st.
Proof. by intros ->. Qed.

Lemma tune_task_run (mo : measure_option) (tmp : string) (n : nat)
      (it : nat * task) (st : state) :
  tune_task mo tmp n it st
  = (Ok tt, after (tune_task_events mo tmp n it) (files st ∪ {[tmp]}) st).
Proof.
  destruct it as [i t]. unfold tune_task, tune_task_events, tuner_tune, after.
  run_monad. by rewrite <- app_assoc.
Qed.

(** The tuning loop: the calls of all iterations, and the temporary log
    file in existence as soon as one iteration has run. *)
Lemma tuning_loop_run (mo : measure_option) (tmp : string) (n : nat)
      (its : list (nat * task)) (st : state) :
  for_each its (tune_task mo tmp n) st
  = (Ok tt,
     after (flat_map (tune_task_events mo tmp n) its)
       (match its with [] => files st | _ :: _ => files st ∪ {[tmp]} end) st).
Proof.
  revert st. induction its as [|it its IH]; intros st.
  - simpl. unfold after. rewrite app_nil_r. by destruct st.
  - simpl. rewrite (bind_ok _ _ _ _ _ (tune_task_run mo tmp n it st)).
    rewrite IH, after_after. f_equal. apply after_files_eq.
    destruct its; simpl; set_solver.
Qed.

Lemma unlink_run (path : string) (st : state) :
  unlink path st
  = (if bool_decide (path ∈ files st) then Ok tt else Raise (FileNotFoundError path),
     after [] (files st ∖ {[path]}) st).
Proof.
  unfold unlink, after. rewrite app_nil_r. case_bool_decide; [done |].
  destruct st as [cfg tr fs]. simpl in *. do 2 f_equal. set_solver.
Qed.

(** All that [tune_model] does, on any task list: it leaves the
    dictionary alone, makes these calls, and ends as the removal of the
    temporary log file ends. *)
Lemma tune_model_run (w : world) (tasks : list task) (log : string) (st : state) :
  tune_model w tasks log st
  = (tune_model_outcome tasks log st,
     after
       (tuning_setup_events w (DEV_CONFIG st)
        ++ tuning_events w (DEV_CONFIG st) tasks log
        ++ [EPickBest (log +:+ ".tmp") log 5; ERemove (log +:+ ".tmp")])
       (files st ∖ {[log +:+ ".tmp"]})
       st).
Proof.
  unfold tune_model, os_remove. simpl.
  rewrite (bind_ok _ _ _ _ _ (get_num_devices_run w _ st)).
  rewrite (bind_ok _ _ _ _ _ (emit_run _ _)), add_events_app.
  erewrite bind_ok; [|reflexivity].
  rewrite (bind_ok _ _ _ _ _ (emit_run _ _)), add_events_app.
  rewrite (bind_ok _ _ _ _ _ (emit_run _ _)), add_events_app.
  rewrite (bind_ok _ _ _ _ _ (tuning_loop_run _ _ _ _ _)).
  rewrite (bind_ok _ _ _ _ _ (emit_run _ _)).
  rewrite (bind_ok _ _ _ _ _ (emit_run _ _)).
  rewrite unlink_run, !add_events_app, !after_add_events, !after_after.
  unfold tuning_setup_events, tuning_events, tune_model_outcome. simpl.
  rewrite <- !app_assoc. simpl.
  destruct tasks as [|t tasks]; simpl.
  - done.
  - rewrite bool_decide_eq_true_2; [|set_solver].
    f_equal. apply after_files_eq. set_solver.
Qed.

(** Reading one fact per task off the calls of the tuning loop. *)
Lemma tuning_events_read {B} (g : event → option B) (h : task → B)
      (w : world) (cfg : gmap string value) (tasks : list task) (log : string) :
  (∀ it, omap g (tune_task_events (tuning_measure_option w cfg)
                   (log +:+ ".tmp") (length tasks) it) = [h it.2]) →
  omap g (tuning_events w cfg tasks log) = h <$> tasks.
Proof.
  intros Hone. unfold tuning_events.
  rewrite (omap_flat_map_one g _ (λ it, h it.2)); [|done].
  transitivity (h <$> (enumerate tasks).*2).
  - by rewrite <- list_fmap_compose.
  - by rewrite enumerate_snd.
Qed.

Lemma tuning_events_quiet (g : event → bool) (w : world) (cfg : gmap string value)
      (tasks : list task) (log : string) :
  (∀ tn, g (EMakeTuner tn) = false) →
  (∀ tn n_trial early mo cbs, g (ETune tn n_trial early mo cbs) = false) →
  existsb g (tuning_events w cfg tasks log) = false.
Proof.
  intros Hmake Htune. apply existsb_flat_map_false. intros it. simpl.
  by rewrite Hmake, Htune.
Qed.





(** C6: on every task list, [tune_model] runs the tuner once per task, in
    task order, each run with [n_trial = min(500, len(task.config_space))]
    and [early_stopping = 250]; these are [N_TRIAL] and [EARLY_STOPPING],
    and the number of trials exceeds neither 500 nor the size of the
    configuration space.  [DEV_CONFIG] is left as it was, and the call
    ends as the removal of the temporary log file ends. *)
Theorem tune_model_trials (w : world) (tasks : list task) (log : string)
        (st : state) :
  N_TRIAL = 500%Z ∧ EARLY_STOPPING = 250%Z ∧
  ∃ evs st',
    tune_model w tasks log st = (tune_model_outcome tasks log st, st')
    ∧ DEV_CONFIG st' = DEV_CONFIG st
    ∧ trace st' = trace st ++ evs
    ∧ omap tuned evs
      = (λ t, (GATuner t, Z.min 500 (Z.of_nat (config_space_len t)), 250%Z)) <$> tasks
    ∧ Forall (λ '(tn, n_trial, early_stopping),
                ∃ t, tn = GATuner t ∧ (n_trial ≤ 500)%Z
                     ∧ (n_trial ≤ Z.of_nat (config_space_len t))%Z
                     ∧ early_stopping = 250%Z)
             (omap tuned evs).
Proof.
  split; [done |]. split; [done |].
  eexists _, _. split; [apply tune_model_run |].
  split; [done |]. split; [done |].
  assert (Hread :
    omap tuned (tuning_setup_events w (DEV_CONFIG st)
                ++ tuning_events w (DEV_CONFIG st) tasks log
                ++ [EPickBest (log +:+ ".tmp") log 5; ERemove (log +:+ ".tmp")])
    = (λ t, (GATuner t, Z.min 500 (Z.of_nat (config_space_len t)), 250%Z)) <$> tasks).
  { rewrite !omap_app. simpl. rewrite app_nil_r. by apply tuning_events_read. }
  split; [done |]. rewrite Hread. apply Forall_fmap, Forall_forall.
  intros t _. simpl. exists t. repeat split; lia.
Qed.

(** C7: on every task list, [tune_model] constructs one [GATuner] per
    task, in task order, and runs each of them with the measure option
    whose runner was made once, for the device key, at tracker address
    [0.0.0.0] and port [9190] (the module's [TRACKER_ADDR] and
    [TRACKER_PORT]) with [timeout = 0] (the module's [TIMEOUT]).
    [DEV_CONFIG] is left as it was, and the call ends as the removal of
    the temporary log file ends. *)
Theorem tune_model_tuner_and_tracker (w : world) (tasks : list task)
        (log : string) (st : state) :
  TRACKER_ADDR = "0.0.0.0" ∧ TRACKER_PORT = 9190%Z ∧ TIMEOUT = 0%Z ∧
  ∃ evs mo st',
    tune_model w tasks log st = (tune_model_outcome tasks log st, st')
    ∧ DEV_CONFIG st' = DEV_CONFIG st
    ∧ trace st' = trace st ++ evs
    ∧ omap made_tuner evs = GATuner <$> tasks
    ∧ omap tuned_by evs = (λ t, (GATuner t, mo)) <$> tasks
    ∧ omap made_runner evs = [mo_runner mo]
    ∧ runner_key (mo_runner mo) = DEVICE_ID w
    ∧ runner_host (mo_runner mo) = "0.0.0.0"
    ∧ runner_port (mo_runner mo) = 9190%Z
    ∧ runner_timeout (mo_runner mo) = 0%Z.
Proof.
  split; [done |]. split; [done |]. split; [done |].
  eexists. exists (tuning_measure_option w (DEV_CONFIG st)). eexists.
  split; [apply tune_model_run |].
  split; [done |]. split; [done |].
  rewrite !omap_app. simpl. rewrite !app_nil_r.
  split; [by apply tuning_events_read |].
  split; [by apply tuning_events_read |].
  split; [|done].
  unfold tuning_events. by rewrite omap_flat_map_none.
Qed.

(** C5: [get_num_devices] asks the tracker at [0.0.0.0:9190] for its text
    summary and returns the number of lines that contain the device
    identifier among the lines strictly before the first one containing
    ['Queue Status']; [N_PARALLEL] is [None], and [tune_model] makes its
    one runner, used by every tuning run, with that count for the module's
    device as [n_parallel], whatever the task list and however the call
    ends. *)
Theorem get_num_devices_counts (w : world) (dev_id : string) (st : state) :
  get_num_devices w dev_id st
  = (Ok (connected_devices dev_id (tracker_summary w)),
     add_events [EConnectTracker "0.0.0.0" 9190; ETextSummary] st)
  ∧ N_PARALLEL = None
  ∧ ∀ tasks log st',
      ∃ evs r st'',
        tune_model w tasks log st' = (tune_model_outcome tasks log st', st'')
        ∧ DEV_CONFIG st'' = DEV_CONFIG st'
        ∧ trace st'' = trace st' ++ evs
        ∧ omap made_runner evs = [r]
        ∧ Forall (λ '(_, mo), mo_runner mo = r) (omap tuned_by evs)
        ∧ runner_n_parallel r = connected_devices (DEVICE_ID w) (tracker_summary w).
Proof.
  split; [apply get_num_devices_run |]. split; [done |].
  intros tasks log st'.
  eexists. exists (mo_runner (tuning_measure_option w (DEV_CONFIG st'))). eexists.
  split; [apply tune_model_run |].
  split; [done |]. split; [done |].
  rewrite !omap_app. simpl. rewrite !app_nil_r.
  split; [unfold tuning_events; by rewrite omap_flat_map_none |].
  split; [|done].
  rewrite (tuning_events_read tuned_by
             (λ t, (GATuner t, tuning_measure_option w (DEV_CONFIG st')))); [|done].
  by apply Forall_fmap, Forall_forall.
Qed.

(** ** Task extraction *)

Lemma get_tasks_run (w : world) (key : string) (st : state) :
  get_tasks w key st
  = match template_strategy key with
    | None => (Raise AssertionError, add_events [ETaskExtractEnv] st)
    | Some s =>
        let tasks :=
          collect_conv_tasks w (cnn_request_for w key s) "c -device=micro_dev" key in
        (if (length tasks =? 3)%nat then Ok tasks else Raise AssertionError,
         add_events (get_tasks_events w key s) st)
    end.
Proof.
  unfold get_tasks, template_strategy, get_tasks_events, cnn_request_for, TARGET.
  run_monad.
  destruct (String.eqb key "direct") eqn:H1;
    [|destruct (String.eqb key "direct_simd") eqn:H2;
      [|destruct (String.eqb key "partial_im2col") eqn:H3]]; simpl.
  4: reflexivity.
  all: destruct (default_layouts w _) as [dl kl]; simpl.
  all: destruct (length _ =? 3)%nat; simpl.
  all: rewrite <- ?app_assoc; reflexivity.
Qed.

Lemma recognized_strategy (key : string) :
  recognized key = true ↔ is_Some (template_strategy key).
Proof.
  unfold recognized, template_strategy.
  destruct (String.eqb key "direct"), (String.eqb key "direct_simd"),
    (String.eqb key "partial_im2col"); simpl; split; (done || by eauto || by intros [? ?]).
Qed.

Lemma recognized_keys (key : string) :
  recognized key = true ↔ key = "direct" ∨ key = "direct_simd" ∨ key = "partial_im2col".
Proof.
  unfold recognized. rewrite !orb_true_iff, !String.eqb_eq. tauto.
Qed.

(** C8: [get_tasks] either returns the tasks collected from the CIFAR-10
    CNN graph generated for the template key, exactly 3 of them, or raises
    [AssertionError]; it raises exactly when the key is none of ['direct'],
    ['direct_simd'], ['partial_im2col'] (before generating the graph) or
    when the number of collected tasks is not 3 (after printing it). *)
Theorem get_tasks_three_or_assertion (w : world) (key : string) (st : state) :
  (∃ s tasks,
      template_strategy key = Some s
      ∧ tasks = collect_conv_tasks w (cnn_request_for w key s) "c -device=micro_dev" key
      ∧ length tasks = 3%nat
      ∧ get_tasks w key st = (Ok tasks, add_events (get_tasks_events w key s) st))
  ∨ (recognized key = false
     ∧ get_tasks w key st = (Raise AssertionError, add_events [ETaskExtractEnv] st))
  ∨ (∃ s,
      template_strategy key = Some s
      ∧ length (collect_conv_tasks w (cnn_request_for w key s) "c -device=micro_dev" key)
        ≠ 3%nat
      ∧ get_tasks w key st
        = (Raise AssertionError, add_events (get_tasks_events w key s) st)).
Proof.
  rewrite get_tasks_run.
  destruct (template_strategy key) as [s|] eqn:Hs.
  - simpl. destruct (Nat.eqb_spec
      (length (collect_conv_tasks w (cnn_request_for w key s) "c -device=micro_dev" key)) 3)
      as [Hlen|Hlen].
    + left. by exists s, (collect_conv_tasks w (cnn_request_for w key s) "c -device=micro_dev" key).
    + right. right. by exists s.
  - right. left. split; [|done].
    destruct (recognized key) eqn:Hr; [|done].
    apply recognized_strategy in Hr as [s' Hs']. congruence.
Qed.

(** ** The module namespace *)

(** The module never binds the name line 364 reads. *)
Lemma config_base_unbound (w : world) :
  load_name (module_namespace w) "RPC_SERVER_DEV_CONFIG_BASE"
  = Raise (NameError "RPC_SERVER_DEV_CONFIG_BASE").
Proof. reflexivity. Qed.

(** The names the functions do read are bound, to the values used above. *)
Lemma module_namespace_settings (w : world) :
  module_namespace w !! "DEVICE_ID" = Some (OStr (DEVICE_ID w))
  ∧ module_namespace w !! "N_TRIAL" = Some (OInt N_TRIAL)
  ∧ module_namespace w !! "EARLY_STOPPING" = Some (OInt EARLY_STOPPING)
  ∧ module_namespace w !! "N_PER_TRIAL" = Some (OInt N_PER_TRIAL)
  ∧ module_namespace w !! "N_PARALLEL" = Some ONone
  ∧ module_namespace w !! "TRACKER_ADDR" = Some (OStr TRACKER_ADDR)
  ∧ module_namespace w !! "TRACKER_PORT" = Some (OInt TRACKER_PORT)
  ∧ module_namespace w !! "TIMEOUT" = Some (OInt TIMEOUT)
  ∧ module_namespace w !! "MICRO_HEADERS" = Some (MICRO_HEADERS w)
  ∧ module_namespace w !! "MICRO_INCLUDE_PATHS" = Some (MICRO_INCLUDE_PATHS w)
  ∧ is_Some (module_namespace w !! "custom_pick_best")
  ∧ is_Some (module_namespace w !! "DEV_CONFIG").
Proof. repeat split; by eexists. Qed.

(** With distinct device identifiers, the module as written initialises
    through the host branch and leaves the namespace the functions use. *)
Lemma module_init_host (w : world) :
  stm32f746xx_DEVICE_ID w ≠ host_DEVICE_ID w →
  module_init w (DEVICE_ID w)
  = Ok (module_namespace w, host_setup w, DEV_CONFIG (initial_state w)).
Proof.
  intros Hne. unfold module_init, device_dispatch, DEVICE_ID.
  destruct (String.eqb_spec (host_DEVICE_ID w) (stm32f746xx_DEVICE_ID w)); [congruence |].
  by rewrite String.eqb_refl.
Qed.

(** The stm32f746xx branch reads [CMSIS_HEADERS], which no import binds. *)
Lemma module_init_stm32f746xx (w : world) :
  module_init w (stm32f746xx_DEVICE_ID w) = Raise (NameError "CMSIS_HEADERS").
Proof.
  unfold module_init, device_dispatch. by rewrite String.eqb_refl.
Qed.

(** The [else] branch reads [RuntimeErorr], which is bound nowhere. *)
Lemma module_init_unknown (w : world) (device_id : string) :
  device_id ≠ stm32f746xx_DEVICE_ID w →
  device_id ≠ host_DEVICE_ID w →
  module_init w device_id = Raise (NameError "RuntimeErorr").
Proof.
  intros Hstm Hhost. unfold module_init, device_dispatch.
  destruct (String.eqb_spec device_id (stm32f746xx_DEVICE_ID w)); [done |].
  destruct (String.eqb_spec device_id (host_DEVICE_ID w)); [done |].
  reflexivity.
Qed.



(** ** Updating the device configuration of the RPC servers *)

Lemma update_without_env_run (w : world) (key : string) (st : state) :
  environ w !! "MICRO_RPC_SERVER_DEV_CONFIG_BASE" = None →
  update_rpc_server_dev_cfg w key st = (Ok tt, add_events warning_events st).
Proof.
  intros Henv. unfold update_rpc_server_dev_cfg. rewrite Henv.
  rewrite bool_decide_eq_false_2; [|by intros [? ?]].
  simpl. run_monad. by rewrite <- app_assoc.
Qed.

(** With the variable set and a recognized key, the first iteration of the
    writing loop stops at the path expression: the memory layout and port
    6666 are in the dictionary, nothing is opened or written. *)
Lemma update_with_env_run (w : world) (key base : string) (s : strategy)
      (st : state) :
  environ w !! "MICRO_RPC_SERVER_DEV_CONFIG_BASE" = Some base →
  template_strategy key = Some s →
  update_rpc_server_dev_cfg w key st
  = (Raise (NameError "RPC_SERVER_DEV_CONFIG_BASE"),
     {| DEV_CONFIG :=
          <["server_port" := VInt 6666]>
            (<["mem_layout" := gen_mem_layout w (sections_for s)]> (DEV_CONFIG st));
        trace := trace st;
        files := files st |}).
Proof.
  intros Henv Hs. unfold update_rpc_server_dev_cfg, environ_get. rewrite Henv.
  rewrite bool_decide_eq_true_2; [|by eexists].
  unfold template_strategy in Hs. simpl.
  destruct (String.eqb key "direct");
    [|destruct (String.eqb key "direct_simd");
      [|destruct (String.eqb key "partial_im2col"); [|done]]].
  all: injection Hs as <-.
  all: unfold write_dev_config; rewrite config_base_unbound; run_monad; reflexivity.
Qed.

Lemma update_with_env_unrecognized (w : world) (key : string) (st : state) :
  is_Some (environ w !! "MICRO_RPC_SERVER_DEV_CONFIG_BASE") →
  recognized key = false →
  update_rpc_server_dev_cfg w key st = (Raise AssertionError, st).
Proof.
  intros Henv Hkey. unfold update_rpc_server_dev_cfg.
  rewrite bool_decide_eq_true_2; [|done].
  unfold recognized in Hkey. apply orb_false_iff in Hkey as [Hkey H3].
  apply orb_false_iff in Hkey as [H1 H2]. rewrite H1, H2, H3. reflexivity.
Qed.

(** C3: when [MICRO_RPC_SERVER_DEV_CONFIG_BASE] is not in the environment,
    [update_rpc_server_dev_cfg] returns, for every template key, after
    exactly two calls, the warning print and then the input prompt; the
    dictionary [DEV_CONFIG] is as before and no file is opened or
    written. *)
Theorem update_without_env (w : world) (key : string) (st : state) :
  environ w !! "MICRO_RPC_SERVER_DEV_CONFIG_BASE" = None →
  ∃ st',
    update_rpc_server_dev_cfg w key st = (Ok tt, st')
    ∧ DEV_CONFIG st' = DEV_CONFIG st
    ∧ trace st'
      = trace st
        ++ [EPrint "WARNING: `RPC_SERVER_DEV_CONFIG_BASE` not in environment. RPC server config will not be auto-updated";
            EInput "[press enter to continue]"]
    ∧ existsb writes_file (trace st') = existsb writes_file (trace st).
Proof.
  intros Henv. exists (add_events warning_events st).
  split; [by apply update_without_env_run |]. split; [done |]. split; [done |].
  simpl. rewrite existsb_app. simpl. by rewrite orb_false_r.
Qed.

Lemma update_without_env_witness :
  ∃ st',
    update_rpc_server_dev_cfg (lab env_without_base lab_tasks) "partial_im2col"
      (initial_state (lab env_without_base lab_tasks))
    = (Ok tt, st')
    ∧ DEV_CONFIG st' = DEV_CONFIG (initial_state (lab env_without_base lab_tasks))
    ∧ trace st'
      = trace (initial_state (lab env_without_base lab_tasks))
        ++ [EPrint "WARNING: `RPC_SERVER_DEV_CONFIG_BASE` not in environment. RPC server config will not be auto-updated";
            EInput "[press enter to continue]"]
    ∧ existsb writes_file (trace st')
      = existsb writes_file (trace (initial_state (lab env_without_base lab_tasks))).
Proof.
  apply (update_without_env (lab env_without_base lab_tasks) "partial_im2col").
  reflexivity.
Defined.

(** What does hold of the dictionary when the update stops: the memory
    layout asked for under the key is in place, and every entry other than
    ['mem_layout'] and ['server_port'] is as before. *)
Lemma update_with_env_frame (w : world) (key base : string) (s : strategy)
      (st : state) :
  environ w !! "MICRO_RPC_SERVER_DEV_CONFIG_BASE" = Some base →
  template_strategy key = Some s →
  ∃ e st',
    update_rpc_server_dev_cfg w key st = (Raise e, st')
    ∧ DEV_CONFIG st' !! "mem_layout" = Some (gen_mem_layout w (sections_for s))
    ∧ ∀ k, k ≠ "mem_layout" → k ≠ "server_port" →
           DEV_CONFIG st' !! k = DEV_CONFIG st !! k.
Proof.
  intros Henv Hs. eexists _, _.
  split; [by apply (update_with_env_run w key base s) |]. simpl.
  split.
  - rewrite lookup_insert_ne; [|done]. by rewrite lookup_insert_eq.
  - intros k Hmem Hport. by rewrite !lookup_insert_ne.
Qed.

(** C2 (the code departs from it): with [MICRO_RPC_SERVER_DEV_CONFIG_BASE]
    set to [/srv/utvm] and the key ['direct'], [update_rpc_server_dev_cfg]
    raises [NameError] for [RPC_SERVER_DEV_CONFIG_BASE] when it formats the
    path of the first file; no file is opened and no configuration is
    dumped, for none of the ten server indices. *)
Theorem update_with_env_writes_no_file :
  ∃ st',
    update_rpc_server_dev_cfg (lab env_with_base lab_tasks) "direct"
      (initial_state (lab env_with_base lab_tasks))
    = (Raise (NameError "RPC_SERVER_DEV_CONFIG_BASE"), st')
    ∧ omap written_config (trace st') = []
    ∧ existsb writes_file (trace st') = false.
Proof.
  eexists. split; [|split].
  - by apply (update_with_env_run _ "direct" "/srv/utvm" conv2d_direct).
  - reflexivity.
  - reflexivity.
Qed.

(** C9 (the code departs from it): with the variable set and the key
    ['direct'], [update_rpc_server_dev_cfg] stops with [NameError] in its
    first loop iteration; the ['server_port'] entry of [DEV_CONFIG] is then
    6666, and it is never set to 6675. *)
Theorem update_with_env_stops_at_port_6666 :
  ∃ st',
    update_rpc_server_dev_cfg (lab env_with_base lab_tasks) "direct"
      (initial_state (lab env_with_base lab_tasks))
    = (Raise (NameError "RPC_SERVER_DEV_CONFIG_BASE"), st')
    ∧ DEV_CONFIG st' !! "server_port" = Some (VInt 6666)
    ∧ DEV_CONFIG st' !! "server_port" ≠ Some (VInt 6675).
Proof.
  eexists. split; [|split].
  - by apply (update_with_env_run _ "direct" "/srv/utvm" conv2d_direct).
  - simpl. by rewrite lookup_insert_eq.
  - simpl. rewrite lookup_insert_eq. discriminate.
Qed.

(** ** The whole run *)

(** With the variable set, [main] stops inside the update of its only
    phase: the exception leaves [main] before any task is extracted. *)
Lemma main_with_env_run (w : world) (base : string) (st : state) :
  environ w !! "MICRO_RPC_SERVER_DEV_CONFIG_BASE" = Some base →
  main w st
  = (Raise (NameError "RPC_SERVER_DEV_CONFIG_BASE"),
     {| DEV_CONFIG :=
          <["server_port" := VInt 6666]>
            (<["mem_layout" := gen_mem_layout w direct_sections]> (DEV_CONFIG st));
        trace := trace st;
        files := files st |}).
Proof.
  intros Henv. unfold main, TEMPLATE_KEYS, tuning_phase. simpl.
  erewrite bind_raise; [reflexivity |].
  erewrite bind_raise; [reflexivity |].
  by apply (update_with_env_run w "direct" base conv2d_direct).
Qed.

(** Without the variable, [main] runs its one phase for ['direct']:
    the warning and the prompt, then the extraction, then, if exactly 3
    tasks were collected, the tuning with the log file named after the
    device. *)
Lemma main_without_env_run (w : world) (st : state) :
  environ w !! "MICRO_RPC_SERVER_DEV_CONFIG_BASE" = None →
  let tasks :=
    collect_conv_tasks w (cnn_request_for w "direct" conv2d_direct)
      "c -device=micro_dev" "direct" in
  let log := host_DEVICE_ID w +:+ ".direct.e2e.log" in
  main w st
  = if (length tasks =? 3)%nat
    then (Ok tt,
          after
            (warning_events
             ++ get_tasks_events w "direct" conv2d_direct
             ++ tuning_setup_events w (DEV_CONFIG st)
             ++ tuning_events w (DEV_CONFIG st) tasks log
             ++ [EPickBest (log +:+ ".tmp") log 5; ERemove (log +:+ ".tmp")])
            (files st ∖ {[log +:+ ".tmp"]})
            st)
    else (Raise AssertionError,
          add_events (warning_events ++ get_tasks_events w "direct" conv2d_direct) st).
Proof.
  intros Henv tasks log. unfold main, TEMPLATE_KEYS, tuning_phase. simpl.
  pose proof (get_tasks_run w "direct" (add_events warning_events st)) as Hget.
  simpl in Hget. fold tasks in Hget.
  assert (Hphase :
    (update_rpc_server_dev_cfg w "direct";;
     tasks0 ← get_tasks w "direct";
     tune_model w tasks0 (DEVICE_ID w +:+ "." +:+ "direct" +:+ ".e2e.log")) st
    = if (length tasks =? 3)%nat
      then tune_model w tasks log
             (add_events (warning_events ++ get_tasks_events w "direct" conv2d_direct) st)
      else (Raise AssertionError,
            add_events (warning_events ++ get_tasks_events w "direct" conv2d_direct) st)).
  { erewrite bind_ok; [|by apply update_without_env_run].
    destruct (length tasks =? 3)%nat.
    - erewrite bind_ok; [|exact Hget]. by rewrite add_events_app.
    - erewrite bind_raise; [|exact Hget]. by rewrite add_events_app. }
  destruct (length tasks =? 3)%nat eqn:Hlen.
  - assert (Hok : ∀ st0, tune_model_outcome tasks log st0 = Ok tt).
    { intros st0. by destruct tasks. }
    erewrite bind_ok; [|rewrite Hphase, tune_model_run, Hok; reflexivity].
    unfold after, add_events. simpl. by rewrite <- !app_assoc.
  - erewrite bind_raise; [reflexivity | exact Hphase].
Qed.

(** C10 (the code departs from it): with [MICRO_RPC_SERVER_DEV_CONFIG_BASE]
    set, [main] raises [NameError] while updating the device configuration
    for ['direct']; it makes no call at all, so no task is extracted,
    nothing is tuned and no log file is produced. *)
Theorem main_with_env_never_tunes :
  ∃ st',
    main (lab env_with_base lab_tasks) (initial_state (lab env_with_base lab_tasks))
    = (Raise (NameError "RPC_SERVER_DEV_CONFIG_BASE"), st')
    ∧ trace st' = []
    ∧ existsb is_phase_call (trace st') = false.
Proof.
  eexists. split; [|split].
  - by apply (main_with_env_run _ "/srv/utvm").
  - reflexivity.
  - reflexivity.
Qed.

(** The same run without the variable goes through all three steps. *)
Example main_without_env_tunes :
  ∃ evs st',
    main (lab env_without_base lab_tasks) (initial_state (lab env_without_base lab_tasks))
    = (Ok tt, st')
    ∧ trace st' = evs
    ∧ omap logged_to evs = [["host.direct.e2e.log.tmp"]; ["host.direct.e2e.log.tmp"];
                            ["host.direct.e2e.log.tmp"]]
    ∧ List.filter touches_log_files evs
      = [EPickBest "host.direct.e2e.log.tmp" "host.direct.e2e.log" 5;
         ERemove "host.direct.e2e.log.tmp"].
Proof.
  eexists _, _. split; [|split; [|split]].
  - by rewrite (main_without_env_run (lab env_without_base lab_tasks)).
  - reflexivity.
  - vm_compute. reflexivity.
  - vm_compute. reflexivity.
Qed.

(** ** The model on a lab set-up *)

Example contains_inside : PyStr.contains "Queue Status" "-- Queue Status --" = true.
Proof. reflexivity. Qed.

Example contains_empty_needle : PyStr.contains "" "abc" = true.
Proof. reflexivity. Qed.

Example contains_absent : PyStr.contains "host" "arm.stm32f746xx" = false.
Proof. reflexivity. Qed.

Example split_lines_trailing :
  PyStr.split_lines ("a" +:+ String PyStr.newline "b" +:+ String PyStr.newline "")
  = ["a"; "b"; ""].
Proof. reflexivity. Qed.

Example split_lines_empty : PyStr.split_lines "" = [""].
Proof. reflexivity. Qed.

Example fmt_2d_one_digit : PyStr.fmt_2d 3 = " 3".
Proof. vm_compute. reflexivity. Qed.

Example fmt_2d_three_digits : PyStr.fmt_2d 123 = "123".
Proof. vm_compute. reflexivity. Qed.

(** Two host servers are listed before the queue status; the host line of
    the queue table is not counted. *)
Example lab_host_devices : connected_devices "host" lab_summary = 2%nat.
Proof. vm_compute. reflexivity. Qed.

Example lab_stm_devices : connected_devices "arm.stm32f746xx" lab_summary = 1%nat.
Proof. vm_compute. reflexivity. Qed.

(** The empty identifier is in every line. *)
Example lab_empty_identifier : connected_devices "" lab_summary = 9%nat.
Proof. vm_compute. reflexivity. Qed.

Example lab_tuning_runs :
  omap tuned
    (tuning_events (lab env_without_base lab_tasks) lab_config lab_tasks "host.direct.e2e.log")
  = [(GATuner {| task_name := "conv2d_0"; config_space_len := 784 |}, 500%Z, 250%Z);
     (GATuner {| task_name := "conv2d_1"; config_space_len := 120 |}, 120%Z, 250%Z);
     (GATuner {| task_name := "conv2d_2"; config_space_len := 5000 |}, 500%Z, 250%Z)].
Proof. vm_compute. reflexivity. Qed.

Example lab_two_tasks_assert :
  (get_tasks (lab env_without_base (take 2 lab_tasks)) "direct"
     (initial_state (lab env_without_base (take 2 lab_tasks)))).1
  = Raise AssertionError.
Proof. vm_compute. reflexivity. Qed.

Example lab_unknown_key_assert :
  (get_tasks (lab env_without_base lab_tasks) "winograd"
     (initial_state (lab env_without_base lab_tasks))).1
  = Raise AssertionError.
Proof. vm_compute. reflexivity. Qed.

(** * Further properties *)

(** ** More on strings and lists *)

Lemma string_app_nil (b : string) : "" +:+ b = b.
Proof. reflexivity. Qed.

Lemma string_app_cons (x : ascii) (a b : string) :
  String x a +:+ b = String x (a +:+ b).
Proof. reflexivity. Qed.

Lemma string_app_assoc (a b c : string) : (a +:+ b) +:+ c = a +:+ (b +:+ c).
Proof.
  induction a as [|x a IH]; [done |]. by rewrite !string_app_cons, IH.
Qed.

Lemma contains_empty (s : string) : PyStr.contains "" s = true.
Proof. apply contains_substring. by exists "", s. Qed.

(** Containment is transitive. *)
Lemma contains_trans (a b c : string) :
  PyStr.contains a b = true → PyStr.contains b c = true → PyStr.contains a c = true.
Proof.
  rewrite !contains_substring. intros (x & y & ->) (u & v & ->).
  exists (u +:+ x), (y +:+ v). by rewrite !string_app_assoc.
Qed.

(** The first field of a split text starts the text. *)
Lemma split_lines_head (s field : string) (fields : list string) :
  PyStr.split_lines s = field :: fields → ∃ rest, s = field +:+ rest.
Proof.
  revert field fields. induction s as [|c s IH]; intros field fields; simpl.
  - intros [= <- <-]. by exists "".
  - destruct (Ascii.eqb c PyStr.newline).
    + intros [= <- <-]. by eexists.
    + destruct (PyStr.split_lines s) as [|f fs] eqn:Hs.
      * intros [= <- <-]. by exists s.
      * intros [= <- <-]. destruct (IH f fs eq_refl) as [rest ->]. by exists rest.
Qed.

(** Every field of a split text is a piece of the text. *)
Lemma split_lines_piece (s line : string) :
  line ∈ PyStr.split_lines s → ∃ before after, s = before +:+ line +:+ after.
Proof.
  revert line. induction s as [|c s IH]; intros line; simpl.
  - intros ->%list_elem_of_singleton. by exists "", "".
  - destruct (Ascii.eqb c PyStr.newline).
    + intros [->|Hin]%elem_of_cons.
      * by exists "", (String c s).
      * destruct (IH line Hin) as (before & after & ->).
        by exists (String c before), after.
    + destruct (PyStr.split_lines s) as [|f fs] eqn:Hs.
      * intros ->%list_elem_of_singleton. by exists "", s.
      * intros [->|Hin]%elem_of_cons.
        -- destruct (split_lines_head s f fs Hs) as [rest ->]. by exists "", rest.
        -- destruct (IH line) as (before & after & ->); [by right |].
           by exists (String c before), after.
Qed.

Lemma split_lines_one (field : string) :
  no_newline field = true → PyStr.split_lines field = [field].
Proof.
  induction field as [|c field IH]; simpl; [done |].
  intros [Hc Hrest]%andb_true_iff. apply negb_true_iff in Hc. rewrite Hc.
  by rewrite (IH Hrest).
Qed.

Lemma split_lines_app (field rest : string) :
  no_newline field = true →
  PyStr.split_lines (field +:+ String PyStr.newline rest)
  = field :: PyStr.split_lines rest.
Proof.
  induction field as [|c field IH].
  - intros _. reflexivity.
  - simpl. intros [Hc Hrest]%andb_true_iff. apply negb_true_iff in Hc.
    rewrite Hc. by rewrite (IH Hrest).
Qed.

(** Joining newline-free lines and splitting again gives the lines back. *)
Lemma split_join_lines (lines : list string) :
  lines ≠ [] → forallb no_newline lines = true →
  PyStr.split_lines (PyStr.join_lines lines) = lines.
Proof.
  induction lines as [|l lines IH]; [done |]. intros _.
  simpl. intros [Hl Hrest]%andb_true_iff.
  destruct lines as [|l' lines].
  - by apply split_lines_one.
  - rewrite split_lines_app; [|done]. by rewrite IH.
Qed.

Lemma first_index_app_hit (p : string → bool) (pre post : list string) (hit : string) :
  forallb (λ line, negb (p line)) pre = true → p hit = true →
  first_index p (pre ++ hit :: post) = Some (length pre).
Proof.
  intros Hpre Hhit. induction pre as [|l pre IH]; simpl in *.
  - by rewrite Hhit.
  - apply andb_true_iff in Hpre as [Hl Hpre]. apply negb_true_iff in Hl.
    rewrite Hl. by rewrite (IH Hpre).
Qed.

Lemma filter_length_le (f g : string → bool) (lines : list string) :
  (∀ line, f line = true → g line = true) →
  (length (List.filter f lines) ≤ length (List.filter g lines))%nat.
Proof.
  intros Hfg. induction lines as [|l lines IH]; simpl; [lia |].
  destruct (f l) eqn:Hf.
  - rewrite (Hfg l Hf). simpl. lia.
  - destruct (g l); simpl; lia.
Qed.

Lemma filter_length_zero (f : string → bool) (lines : list string) :
  length (List.filter f lines) = 0%nat ↔ ∀ line, line ∈ lines → f line = false.
Proof.
  induction lines as [|l lines IH]; simpl.
  - split; [intros _ line Hin; by apply elem_of_nil in Hin | done].
  - destruct (f l) eqn:Hf; simpl.
    + split; [done |]. intros Hall. specialize (Hall l ltac:(left)). congruence.
    + rewrite IH. split.
      * intros Hall line [->|Hin]%elem_of_cons; auto.
      * intros Hall line Hin. apply Hall. by right.
Qed.

Lemma filter_all (f : string → bool) (lines : list string) :
  (∀ line, f line = true) → List.filter f lines = lines.
Proof.
  intros Hf. induction lines as [|l lines IH]; simpl; [done |].
  by rewrite Hf, IH.
Qed.

(** No line before the queue status header mentions the queue status. *)
Lemma lines_before_queue_status_clean (lines : list string) (line : string) :
  line ∈ lines_before_queue_status lines →
  PyStr.contains "Queue Status" line = false.
Proof.
  unfold lines_before_queue_status.
  intros [j Hj]%list_elem_of_lookup.
  apply lookup_take_Some in Hj as [Hj Hlt].
  destruct (first_index _ lines) as [k|] eqn:Hk; simpl in Hlt.
  - apply first_index_Some in Hk as [_ Hall]. by apply (Hall j).
  - apply (proj1 (first_index_None _ _) Hk). apply list_elem_of_lookup. by exists j.
Qed.

(** ** More on the device count *)

Lemma get_num_devices_result (w : world) (dev_id : string) (st : state) :
  (get_num_devices w dev_id st).1
  = Ok (connected_devices dev_id (tracker_summary w)).
Proof. by rewrite get_num_devices_run. Qed.

(** X1: [get_num_devices] returns 0 exactly when no line before the
    queue status header contains the device identifier. *)
Theorem get_num_devices_zero_iff (w : world) (dev_id : string) (st : state) :
  (get_num_devices w dev_id st).1 = Ok 0%nat ↔
  ∀ line,
    line ∈ lines_before_queue_status (PyStr.split_lines (tracker_summary w)) →
    PyStr.contains dev_id line = false.
Proof.
  rewrite get_num_devices_result. unfold connected_devices.
  rewrite <- filter_length_zero. split; [by intros [= ->] | by intros ->].
Qed.

(** X2: the identifier is matched as a substring of the line, so an
    identifier that is part of another one is counted at least as often:
    when [a] occurs in [b], the count for [b] is at most the count for
    [a]. *)
Theorem get_num_devices_substring_id (w : world) (a b : string) (st : state) :
  PyStr.contains a b = true →
  ∃ na nb,
    (get_num_devices w a st).1 = Ok na
    ∧ (get_num_devices w b st).1 = Ok nb
    ∧ (nb ≤ na)%nat.
Proof.
  intros Hab. eexists _, _.
  split; [apply get_num_devices_result |].
  split; [apply get_num_devices_result |].
  apply filter_length_le. intros line. by apply contains_trans.
Qed.

Lemma get_num_devices_substring_id_witness :
  ∃ na nb,
    (get_num_devices (lab env_without_base lab_tasks) "arm"
       (initial_state (lab env_without_base lab_tasks))).1 = Ok na
    ∧ (get_num_devices (lab env_without_base lab_tasks) "arm.stm32f746xx"
         (initial_state (lab env_without_base lab_tasks))).1 = Ok nb
    ∧ (nb ≤ na)%nat.
Proof.
  apply (get_num_devices_substring_id (lab env_without_base lab_tasks)
           "arm" "arm.stm32f746xx").
  reflexivity.
Defined.

(** X3: when the tracker's summary nowhere contains ['Queue Status'], the
    loop never breaks and every line of the summary is examined: the
    result is the number of all lines containing the identifier. *)
Theorem get_num_devices_without_header (w : world) (dev_id : string) (st : state) :
  PyStr.contains "Queue Status" (tracker_summary w) = false →
  (get_num_devices w dev_id st).1
  = Ok (length (List.filter (PyStr.contains dev_id)
                  (PyStr.split_lines (tracker_summary w)))).
Proof.
  intros Hnone. rewrite get_num_devices_result.
  unfold connected_devices, lines_before_queue_status.
  assert (Hidx :
    first_index (PyStr.contains "Queue Status") (PyStr.split_lines (tracker_summary w))
    = None).
  { apply first_index_None. intros line Hin.
    destruct (PyStr.contains "Queue Status" line) eqn:Hline; [|done].
    apply split_lines_piece in Hin as (before & after & Hsum).
    assert (Hsub : PyStr.contains line (tracker_summary w) = true).
    { apply contains_substring. by exists before, after. }
    rewrite (contains_trans _ _ _ Hline Hsub) in Hnone. discriminate. }
  rewrite Hidx. simpl. by rewrite take_ge.
Qed.

Lemma get_num_devices_without_header_witness :
  (get_num_devices (lab_no_queue (PyStr.join_lines lab_server_lines)) "host"
     (initial_state (lab_no_queue (PyStr.join_lines lab_server_lines)))).1
  = Ok (length (List.filter (PyStr.contains "host")
                  (PyStr.split_lines
                     (tracker_summary (lab_no_queue (PyStr.join_lines lab_server_lines)))))).
Proof.
  apply (get_num_devices_without_header
           (lab_no_queue (PyStr.join_lines lab_server_lines)) "host").
  vm_compute. reflexivity.
Defined.

(** X4: whatever follows the first line containing ['Queue Status'] is
    ignored, and that line itself is never counted: for a summary made of
    the lines [pre], then a header line, then the lines [post], the result
    is the number of lines of [pre] containing the identifier. *)
Theorem get_num_devices_ignores_queue_table
        (w : world) (dev_id : string) (st : state)
        (pre : list string) (header : string) (post : list string) :
  tracker_summary w = PyStr.join_lines (pre ++ header :: post) →
  forallb no_newline (pre ++ header :: post) = true →
  forallb (λ line, negb (PyStr.contains "Queue Status" line)) pre = true →
  PyStr.contains "Queue Status" header = true →
  (get_num_devices w dev_id st).1
  = Ok (length (List.filter (PyStr.contains dev_id) pre)).
Proof.
  intros Hsum Hnl Hpre Hheader. rewrite get_num_devices_result.
  unfold connected_devices, lines_before_queue_status.
  rewrite Hsum, split_join_lines; [|by destruct pre | done].
  rewrite (first_index_app_hit _ pre post header Hpre Hheader). simpl.
  by rewrite take_app_length.
Qed.

Lemma get_num_devices_ignores_queue_table_witness :
  (get_num_devices (lab env_without_base lab_tasks) "host"
     (initial_state (lab env_without_base lab_tasks))).1
  = Ok (length (List.filter (PyStr.contains "host") lab_server_lines)).
Proof.
  apply (get_num_devices_ignores_queue_table (lab env_without_base lab_tasks) "host"
           (initial_state (lab env_without_base lab_tasks))
           lab_server_lines "Queue Status" lab_queue_lines).
  - vm_compute. reflexivity.
  - vm_compute. reflexivity.
  - vm_compute. reflexivity.
  - vm_compute. reflexivity.
Defined.

(** X5: the empty identifier is contained in every line, blank ones
    included: [get_num_devices('')] returns the number of lines before the
    queue status header. *)
Theorem get_num_devices_empty_id (w : world) (st : state) :
  (get_num_devices w "" st).1
  = Ok (length (lines_before_queue_status (PyStr.split_lines (tracker_summary w)))).
Proof.
  rewrite get_num_devices_result. unfold connected_devices.
  rewrite filter_all; [done |]. apply contains_empty.
Qed.

(** ** More on the tuning run *)



(** X6: on an empty task list [tune_model] tunes nothing and logs
    nothing, yet it still asks the tracker, and still calls
    [custom_pick_best] on, and then [os.remove] on, a temporary log file
    that no tuning run has written: the call returns if that file was
    there before, and raises [FileNotFoundError] if it was not. *)
Theorem tune_model_no_tasks (w : world) (log : string) (st : state) :
  ∃ evs st',
    tune_model w [] log st
    = (if bool_decide (log +:+ ".tmp" ∈ files st) then Ok tt
       else Raise (FileNotFoundError (log +:+ ".tmp")),
       st')
    ∧ DEV_CONFIG st' = DEV_CONFIG st
    ∧ trace st' = trace st ++ evs
    ∧ omap tuned evs = []
    ∧ omap logged_to evs = []
    ∧ List.filter asks_tracker evs = [EConnectTracker "0.0.0.0" 9190; ETextSummary]
    ∧ List.filter touches_log_files evs
      = [EPickBest (log +:+ ".tmp") log 5; ERemove (log +:+ ".tmp")].
Proof.
  eexists _, _. split; [apply tune_model_run |]. by repeat split.
Qed.

(** X7: [tune_model] never changes [DEV_CONFIG] and never opens or dumps
    a configuration file, however it ends; it hands the cross compiler,
    once, the dictionary as it finds it, for an operator library with no
    headers and no include paths. *)
Theorem tune_model_keeps_dev_config (w : world) (tasks : list task) (log : string)
        (st : state) :
  ∃ evs st',
    tune_model w tasks log st = (tune_model_outcome tasks log st, st')
    ∧ DEV_CONFIG st' = DEV_CONFIG st
    ∧ trace st' = trace st ++ evs
    ∧ existsb writes_file evs = false
    ∧ omap cross_compiled evs
      = [{| cc_dev_config := DEV_CONFIG st;
            cc_lib_type := OPERATOR;
            cc_lib_headers := ONone;
            cc_lib_include_paths := ONone |}].
Proof.
  eexists _, _. split; [apply tune_model_run |].
  split; [done |]. split; [done |]. split.
  - rewrite !existsb_app. simpl. by rewrite tuning_events_quiet.
  - rewrite !omap_app. simpl.
    unfold tuning_events. by rewrite omap_flat_map_none.
Qed.



(** ** More on the update of the device configuration *)

(** X9: the keys ['direct'] and ['direct_simd'] are handled alike: from
    the same state, in any environment, the two calls end in the same
    result and the same state (their memory layouts are the same
    sections, with a workspace of 13000 bytes). *)
Theorem update_same_for_direct_and_direct_simd (w : world) (st : state) :
  update_rpc_server_dev_cfg w "direct" st
  = update_rpc_server_dev_cfg w "direct_simd" st.
Proof.
  destruct (environ w !! "MICRO_RPC_SERVER_DEV_CONFIG_BASE") as [base|] eqn:Henv.
  - rewrite (update_with_env_run w "direct" base conv2d_direct st Henv eq_refl).
    by rewrite (update_with_env_run w "direct_simd" base conv2d_direct_simd st Henv eq_refl).
  - by rewrite !update_without_env_run.
Qed.

(** X10: with the variable set, a template key that is none of the three
    known ones fails the [assert False] before anything else happens:
    [AssertionError], with [DEV_CONFIG] and the trace exactly as before. *)
Theorem update_unrecognized_key (w : world) (key base : string) (st : state) :
  environ w !! "MICRO_RPC_SERVER_DEV_CONFIG_BASE" = Some base →
  recognized key = false →
  update_rpc_server_dev_cfg w key st = (Raise AssertionError, st).
Proof.
  intros Henv Hkey. apply update_with_env_unrecognized; [|done].
  rewrite Henv. by eexists.
Qed.

Lemma update_unrecognized_key_witness :
  update_rpc_server_dev_cfg (lab env_with_base lab_tasks) "winograd"
    (initial_state (lab env_with_base lab_tasks))
  = (Raise AssertionError, initial_state (lab env_with_base lab_tasks)).
Proof.
  apply (update_unrecognized_key (lab env_with_base lab_tasks) "winograd" "/srv/utvm").
  - reflexivity.
  - reflexivity.
Defined.



(** ** More on the extraction *)

(** X12: only the key ['direct'] registers a template: [get_tasks]
    registers [conv2d_direct] under ['topi_nn_conv2d'] with
    [override=True] for ['direct'], and registers nothing for any other
    key, ['direct_simd'] and ['partial_im2col'] included. *)
Theorem get_tasks_registers_only_direct (w : world) (key : string) (st : state) :
  ∃ r evs,
    get_tasks w key st = (r, add_events evs st)
    ∧ omap registered evs
      = if String.eqb key "direct"
        then [("topi_nn_conv2d", true, conv2d_direct)]
        else [].
Proof.
  rewrite get_tasks_run. unfold template_strategy, get_tasks_events.
  destruct (String.eqb key "direct");
    [|destruct (String.eqb key "direct_simd");
      [|destruct (String.eqb key "partial_im2col")]];
    by eexists _, _.
Qed.

(** X13: [get_tasks] never changes [DEV_CONFIG], never asks the tracker,
    and never opens, dumps, picks from or removes a file, whether it
    returns or raises. *)
Theorem get_tasks_keeps_dev_config (w : world) (key : string) (st : state) :
  ∃ r evs st',
    get_tasks w key st = (r, st')
    ∧ DEV_CONFIG st' = DEV_CONFIG st
    ∧ trace st' = trace st ++ evs
    ∧ existsb writes_file evs = false
    ∧ existsb touches_log_files evs = false
    ∧ existsb asks_tracker evs = false.
Proof.
  rewrite get_tasks_run. unfold template_strategy, get_tasks_events.
  destruct (String.eqb key "direct");
    [|destruct (String.eqb key "direct_simd");
      [|destruct (String.eqb key "partial_im2col")]];
    by eexists _, _, _.
Qed.

(** ** More on the whole run *)




(** X15: without the variable, when the number of tasks collected for
    ['direct'] is not 3, [main] stops with [AssertionError] right after
    printing that number: the tracker is never asked, nothing is tuned and
    no log file is picked from or removed. *)
Theorem main_stops_on_wrong_task_count (w : world) (st : state) :
  environ w !! "MICRO_RPC_SERVER_DEV_CONFIG_BASE" = None →
  length (collect_conv_tasks w (cnn_request_for w "direct" conv2d_direct)
            "c -device=micro_dev" "direct") ≠ 3%nat →
  ∃ evs,
    main w st = (Raise AssertionError, add_events evs st)
    ∧ last evs
      = Some (EPrint ("extracted "
                      +:+ PyStr.of_nat
                            (length (collect_conv_tasks w
                                       (cnn_request_for w "direct" conv2d_direct)
                                       "c -device=micro_dev" "direct"))
                      +:+ " tasks"))
    ∧ existsb asks_tracker evs = false
    ∧ omap tuned evs = []
    ∧ existsb touches_log_files evs = false.
Proof.
  intros Henv Hlen. eexists.
  split; [rewrite (main_without_env_run w st Henv);
          by rewrite (proj2 (Nat.eqb_neq _ _) Hlen) |].
  by repeat split.
Qed.

Lemma main_stops_on_wrong_task_count_witness :
  ∃ evs,
    main (lab env_without_base (take 2 lab_tasks))
      (initial_state (lab env_without_base (take 2 lab_tasks)))
    = (Raise AssertionError,
       add_events evs (initial_state (lab env_without_base (take 2 lab_tasks))))
    ∧ last evs
      = Some (EPrint ("extracted "
                      +:+ PyStr.of_nat
                            (length (collect_conv_tasks (lab env_without_base (take 2 lab_tasks))
                                       (cnn_request_for (lab env_without_base (take 2 lab_tasks))
                                          "direct" conv2d_direct)
                                       "c -device=micro_dev" "direct"))
                      +:+ " tasks"))
    ∧ existsb asks_tracker evs = false
    ∧ omap tuned evs = []
    ∧ existsb touches_log_files evs = false.
Proof.
  apply (main_stops_on_wrong_task_count (lab env_without_base (take 2 lab_tasks))).
  - reflexivity.
  - simpl. lia.
Defined.

(** X16: whatever the environment and the state, [main] works for the
    key ['direct'] only: every graph it generates and every collection of
    tasks it asks for is for ['direct'], and every tuning run it makes logs
    to [<host id>.direct.e2e.log.tmp]. *)
Theorem main_only_direct (w : world) (st : state) :
  ∃ r evs st',
    main w st = (r, st')
    ∧ trace st' = trace st ++ evs
    ∧ Forall (λ key, key = "direct") (omap extraction_key evs)
    ∧ Forall (λ files, files = [(host_DEVICE_ID w +:+ ".direct.e2e.log") +:+ ".tmp"])
             (omap logged_to evs).
Proof.
  destruct (environ w !! "MICRO_RPC_SERVER_DEV_CONFIG_BASE") as [base|] eqn:Henv.
  - exists (Raise (NameError "RPC_SERVER_DEV_CONFIG_BASE")), []. eexists.
    split; [by apply (main_with_env_run w base) |].
    simpl. split; [by rewrite app_nil_r |]. by split.
  - rewrite (main_without_env_run w st Henv).
    destruct (length _ =? 3)%nat; eexists _, _, _.
    + split; [done |]. split; [done |].
      unfold get_tasks_events. simpl.
      rewrite !omap_app. simpl. rewrite !app_nil_r. split.
      * unfold tuning_events. rewrite omap_flat_map_none; [|done].
        by repeat constructor.
      * rewrite (tuning_events_read logged_to
                   (λ _, [(host_DEVICE_ID w +:+ ".direct.e2e.log") +:+ ".tmp"]));
          [|done].
        by apply Forall_fmap, Forall_forall.
    + split; [done |]. split; [done |].
      unfold get_tasks_events. simpl. split; by repeat constructor.
Qed.



(** ** More on the module body *)

(** X18: the device dispatch has three outcomes and only one of them
    succeeds.  The stm32f746xx setting raises [NameError] for
    [CMSIS_HEADERS]; a setting that is the host identifier and not the
    stm32f746xx one succeeds with the host set-up and binds to [DEV_CONFIG]
    what [host.generate_config()] returns; any other setting raises
    [NameError] for [RuntimeErorr]. *)
Theorem module_init_outcomes (w : world) (device_id : string) :
  (device_id = stm32f746xx_DEVICE_ID w
   ∧ module_init w device_id = Raise (NameError "CMSIS_HEADERS"))
  ∨ (device_id ≠ stm32f746xx_DEVICE_ID w ∧ device_id = host_DEVICE_ID w
     ∧ ∃ ns, module_init w device_id
             = Ok (ns, host_setup w, host_generate_config w None))
  ∨ (device_id ≠ stm32f746xx_DEVICE_ID w ∧ device_id ≠ host_DEVICE_ID w
     ∧ module_init w device_id = Raise (NameError "RuntimeErorr")).
Proof.
  destruct (decide (device_id = stm32f746xx_DEVICE_ID w)) as [->|Hstm].
  - left. split; [done |]. apply module_init_stm32f746xx.
  - right. destruct (decide (device_id = host_DEVICE_ID w)) as [->|Hhost].
    + left. split; [done |]. split; [done |]. eexists.
      apply (module_init_host w). congruence.
    + right. split; [done |]. split; [done |]. by apply module_init_unknown.
Qed.

(** X19: when the two device identifiers differ, the module as written
    (line 121 selects the host) initialises: no headers and no include
    paths, [conv2d_direct] for all three convolutions, [DEV_CONFIG] from
    [host.generate_config()].  Its namespace has [DEVICE_ID] bound to the
    host identifier and has neither [SERVER_ADDR] nor [SERVER_PORT], which
    only the stm32f746xx branch binds. *)
Theorem module_init_host_bindings (w : world) :
  stm32f746xx_DEVICE_ID w ≠ host_DEVICE_ID w →
  ∃ ns setup dev_config,
    module_init w (DEVICE_ID w) = Ok (ns, setup, dev_config)
    ∧ dev_config = host_generate_config w None
    ∧ generate_config setup = host_generate_config w
    ∧ setup_MICRO_HEADERS setup = ONone
    ∧ setup_MICRO_INCLUDE_PATHS setup = ONone
    ∧ OP_STRATEGIES setup = [conv2d_direct; conv2d_direct; conv2d_direct]
    ∧ ns !! "DEVICE_ID" = Some (OStr (host_DEVICE_ID w))
    ∧ ns !! "MICRO_HEADERS" = Some ONone
    ∧ ns !! "SERVER_ADDR" = None
    ∧ ns !! "SERVER_PORT" = None.
Proof.
  intros Hne. eexists _, _, _. split; [by apply module_init_host |].
  by repeat split.
Qed.

Lemma module_init_host_bindings_witness :
  ∃ ns setup dev_config,
    module_init (lab env_without_base lab_tasks) (DEVICE_ID (lab env_without_base lab_tasks))
    = Ok (ns, setup, dev_config)
    ∧ dev_config = host_generate_config (lab env_without_base lab_tasks) None
    ∧ generate_config setup = host_generate_config (lab env_without_base lab_tasks)
    ∧ setup_MICRO_HEADERS setup = ONone
    ∧ setup_MICRO_INCLUDE_PATHS setup = ONone
    ∧ OP_STRATEGIES setup = [conv2d_direct; conv2d_direct; conv2d_direct]
    ∧ ns !! "DEVICE_ID" = Some (OStr (host_DEVICE_ID (lab env_without_base lab_tasks)))
    ∧ ns !! "MICRO_HEADERS" = Some ONone
    ∧ ns !! "SERVER_ADDR" = None
    ∧ ns !! "SERVER_PORT" = None.
Proof.
  apply (module_init_host_bindings (lab env_without_base lab_tasks)).
  discriminate.
Defined.

(** ** The file run as a script *)


(** When the two device identifiers coincide, the stm32f746xx branch
    is tested first and wins: running the script raises [NameError] for
    [CMSIS_HEADERS] in the module body and [main] is never entered. *)
Theorem script_same_identifiers (w : world) :
  stm32f746xx_DEVICE_ID w = host_DEVICE_ID w →
  script w = (Raise (NameError "CMSIS_HEADERS"), None).
Proof.
  intros Heq. unfold script, DEVICE_ID. rewrite <- Heq.
  by rewrite module_init_stm32f746xx.
Qed.

Lemma script_same_identifiers_witness :
  script lab_same_ids = (Raise (NameError "CMSIS_HEADERS"), None).
Proof.
  apply (script_same_identifiers lab_same_ids). reflexivity.
Defined.



(** X21: in no environment, for no template key and from no state does
    [update_rpc_server_dev_cfg] open or dump a configuration file, and it
    never returns normally having changed [DEV_CONFIG]. *)
Theorem update_never_writes_config (w : world) (key : string) (st : state) :
  ∃ r st',
    update_rpc_server_dev_cfg w key st = (r, st')
    ∧ (∃ evs, trace st' = trace st ++ evs ∧ existsb writes_file evs = false)
    ∧ (r = Ok tt → DEV_CONFIG st' = DEV_CONFIG st).
Proof.
  destruct (environ w !! "MICRO_RPC_SERVER_DEV_CONFIG_BASE") as [base|] eqn:Henv.
  - destruct (template_strategy key) as [s|] eqn:Hs.
    + eexists _, _. split; [by apply (update_with_env_run w key base s) |].
      split; [exists []; by rewrite app_nil_r | discriminate].
    + eexists _, _. split.
      * apply update_with_env_unrecognized; [rewrite Henv; by eexists |].
        destruct (recognized key) eqn:Hr; [|done].
        apply recognized_strategy in Hr as [s' Hs']. congruence.
      * split; [exists []; by rewrite app_nil_r | discriminate].
  - eexists _, _. split; [by apply update_without_env_run |].
    split; [by exists warning_events | done].
Qed.
